(** * NFTMinter: the wallet session, the gallery loader and the mint flow

    A shallow embedding of the event handlers of
    [frontend/src/App.tsx] (component [App]) and of the minting form
    component ([NFTMinter], imported by [App] from
    [./components/NFTMinter]).

    The handlers are asynchronous functions that read and write React
    state and call out to collaborators: the injected wallet provider,
    the contract (through ethers), the storage helpers of [utils/ipfs]
    and a few browser builtins.  They are embedded as computations in a
    state-and-exception monad over the state of the page; the outcome of
    every call to a collaborator is given by a [World] of oracles, and
    every such call is recorded in a journal kept in the page, so that
    "this endpoint was never invoked" is a statement about the journal.

    Each handler runs to completion before the next one starts: the
    races between in-flight handlers are outside this model. *)

From Stdlib Require Import String Ascii ZArith List Bool Lia.
From Stdlib Require Import DecimalString DecimalZ DecimalPos Decimal.
Import ListNotations.
Open Scope string_scope.
Open Scope Z_scope.
Set Warnings "-register-all".

(* ================================================================== *)
(** ** JavaScript values and strings *)
(* ================================================================== *)

(** The values [JSON.parse] and [response.json()] can return, and
    [undefined] for an absent property.  Numbers are the integer-valued
    ones. *)
Inductive JsValue : Type :=
| JUndefined
| JNull
| JBool (b : bool)
| JNum (n : Z)
| JStr (s : string)
| JArr (items : list JsValue)
| JObj (fields : list (string * JsValue)).

(** What a [throw] carries: an [Error] object with its [message], or any
    other value ([err instanceof Error] tells them apart). *)
Inductive Exn : Type :=
| JsError (message : string)
| JsThrown (v : JsValue).

Inductive Result (A : Type) : Type :=
| Ok (a : A)
| Throw (e : Exn).
Arguments Ok {A} a.
Arguments Throw {A} e.

(** [!!v] *)
Definition truthy (v : JsValue) : bool :=
  match v with
  | JUndefined | JNull => false
  | JBool b => b
  | JNum n => negb (n =? 0)
  | JStr s => negb (s =? "")%string
  | JArr _ | JObj _ => true
  end.

(** [a || b] *)
Definition jsOr (a b : JsValue) : JsValue := if truthy a then a else b.

Fixpoint assoc (k : string) (fs : list (string * JsValue)) : option JsValue :=
  match fs with
  | [] => None
  | (k', v) :: fs' => if (k =? k')%string then Some v else assoc k fs'
  end.

(** [v.k] for one of the keys [name], [description], [image]: a
    [TypeError] on [null] and [undefined], the field of an object,
    [undefined] on everything else. *)
Definition getProp (v : JsValue) (k : string) : Result JsValue :=
  match v with
  | JUndefined =>
      Throw (JsError ("Cannot read properties of undefined (reading '" ++ k ++ "')"))
  | JNull =>
      Throw (JsError ("Cannot read properties of null (reading '" ++ k ++ "')"))
  | JObj fs => Ok (match assoc k fs with Some x => x | None => JUndefined end)
  | _ => Ok JUndefined
  end.

(** A value React accepts as a child of an element: text, numbers, the
    values it skips, and arrays of such; a plain object makes the render
    throw. *)
Fixpoint renderable (v : JsValue) : bool :=
  match v with
  | JObj _ => false
  | JArr items => forallb renderable items
  | _ => true
  end.

(** [s.split(sep)] for a one-character separator. *)
Fixpoint split (sep : ascii) (s : string) : list string :=
  match s with
  | EmptyString => [EmptyString]
  | String c s' =>
      if Ascii.eqb c sep then EmptyString :: split sep s'
      else match split sep s' with
           | h :: t => String c h :: t
           | [] => [String c EmptyString]
           end
  end.

Fixpoint drop (n : nat) (s : string) : string :=
  match n, s with
  | O, _ => s
  | S n', String _ s' => drop n' s'
  | S _, EmptyString => EmptyString
  end.

(** [s.replace(pat, rep)] with a string pattern: the first occurrence
    only ([rep] holds no [$]). *)
Fixpoint replace (pat rep s : string) : string :=
  if prefix pat s then rep ++ drop (String.length pat) s
  else match s with
       | EmptyString => EmptyString
       | String c s' => String c (replace pat rep s')
       end.

(** [n.toString()] of a [bigint]. *)
Definition toString (n : Z) : string := NilZero.string_of_int (Z.to_int n).

(** [v.replace(pat, rep)] on a value that passed a truthiness test: the
    string method on a string, a [TypeError] on anything else (values out
    of JSON have no [replace]). *)
Definition replaceOf (v : JsValue) (pat rep : string) : Result string :=
  match v with
  | JStr s => Ok (replace pat rep s)
  | JUndefined | JNull =>
      Throw (JsError "Cannot read properties of undefined (reading 'replace')")
  | _ => Throw (JsError "metadata.image.replace is not a function")
  end.

(* ================================================================== *)
(** ** Data model *)
(* ================================================================== *)

(** [type NFT = { name; description; image }] of [App.tsx].  The fields
    are declared [string]; the loader fills them from [any], so they
    hold whatever the metadata document holds. *)
Module NFT.
Record t : Type := mk { name : JsValue; description : JsValue; image : JsValue }.
End NFT.

(** [NFTMetadata] of [types/nft], as [handleMint] builds it. *)
Module NFTMetadata.
Record t : Type := mk { name : string; description : string; image : string }.
End NFTMetadata.

(** [MintingState] of [types/nft], as [useState] initialises it. *)
Module MintingState.
Record t : Type := mk { isMinting : bool; error : option string; success : bool }.
End MintingState.

Record File : Type := { fileName : string; fileBytes : string }.

Record Signer : Type := { signerAddress : string }.

Record Contract : Type :=
  { target : string; abi : list string; runner : Signer }.

Record Tx : Type := { hash : string }.

Record Response : Type :=
  { ok : bool; statusText : string; json : Result JsValue }.

Definition NFT_CONTRACT_ADDRESS : string :=
  "0x92fd6660B83F6a37A782A24385A9db5460c1D749".
Definition NFT_MINTER_CONTRACT_ADDRESS : string :=
  "0x92fd6660B83F6a37A782A24385A9db5460c1D749".

Definition NFT_MINTER_ABI : list string :=
  [ "function mintNFT(string memory tokenURI) public returns (uint256)";
    "function getItemId() public view returns(uint256)";
    "function tokenURI(uint256 tokenId) view returns (string)";
    "function ownerOf(uint256 tokenId) view returns (address)";
    "function balanceOf(address owner) view returns (uint256)";
    "function tokenOfOwnerByIndex(address owner, uint256 index) view returns (uint256)";
    "event Transfer(address indexed from, address indexed to, uint256 indexed tokenId)" ].

(** The state of component [App]. *)
Module AppState.
Record t : Type := mk
  { nfts : list NFT.t;
    loading : bool;
    error : option string;
    account : option string;
    isConnecting : bool }.

(** The initial values of the [useState] calls. *)
Definition init : t := mk [] true None None false.
End AppState.

(** The state of component [NFTMinter]. *)
Module MinterState.
Record t : Type := mk
  { file : option File;
    name : string;
    description : string;
    contract : option Contract;
    signer : option Signer;
    mintingState : MintingState.t;
    previewUrl : option string }.

Definition init : t :=
  mk None "" "" None None (MintingState.mk false None false) None.
End MinterState.

(** The calls that leave the page. *)
Inductive Call : Type :=
| RequestAccounts                              (* request({method: 'eth_requestAccounts'}), by the page itself *)
| GetSigner                                    (* provider.getSigner(): what ethers asks the wallet in turn is not journalled *)
| GetAddress                                   (* signer.getAddress() *)
| GetItemId                                    (* contract.getItemId() *)
| TokenURI (tokenId : Z)                       (* contract.tokenURI(tokenId) *)
| Fetch (url : string)                         (* fetch(url) *)
| ResponseJson                                 (* response.json() *)
| UploadToIPFS (f : File)                      (* uploadToIPFS(file) *)
| UploadMetadataToIPFS (m : NFTMetadata.t)     (* uploadMetadataToIPFS(metadata) *)
| MintNFT (uri : string)                       (* contract.mintNFT(uri) *)
| TxWait (tx : Tx)                             (* tx.wait() *)
| Reload.                                      (* window.location.reload() *)

(** The page: both components, the journal of the calls made so far
    (oldest first) and the labels passed to [console.error]. *)
Record Page : Type := mkPage
  { app : AppState.t;
    minter : MinterState.t;
    calls : list Call;
    console : list string }.

Definition initialPage : Page :=
  mkPage AppState.init MinterState.init [] [].

(* ================================================================== *)
(** ** The collaborators *)
(* ================================================================== *)

(** [window.ethereum], seen through [request] and through the
    [ethers.BrowserProvider] wrapped around it. *)
Record EthereumProvider : Type :=
  { eth_requestAccounts : Result (list string);
    getSigner : Result Signer;
    getAddress : Signer -> Result string }.

(** What the outside answers.  [ethereum] is [None] when no wallet is
    injected.  [getIpfsUrl], [uploadToIPFS] and [uploadMetadataToIPFS]
    are the helpers of [utils/ipfs]; [atob], [JSON_parse], [fetch] and
    [createObjectURL] are browser builtins. *)
Record World : Type :=
  { ethereum : option EthereumProvider;
    getItemId : Result Z;
    tokenURI : Z -> Result string;
    mintNFT : string -> Result Tx;
    wait : Tx -> Result JsValue;
    atob : string -> Result string;
    JSON_parse : string -> Result JsValue;
    fetch : string -> Result Response;
    getIpfsUrl : string -> string;
    uploadToIPFS : File -> Result string;
    uploadMetadataToIPFS : NFTMetadata.t -> Result string;
    createObjectURL : File -> string }.

(* ================================================================== *)
(** ** The monad of handlers *)
(* ================================================================== *)

(** A handler step: it may change the page, and returns or throws.  What
    was written to the page before a [throw] stays written. *)
Definition M (A : Type) : Type := Page -> Result A * Page.

Definition ret {A} (a : A) : M A := fun p => (Ok a, p).

Definition bind {A B} (m : M A) (k : A -> M B) : M B :=
  fun p => match m p with
           | (Ok a, p') => k a p'
           | (Throw e, p') => (Throw e, p')
           end.

Definition throw {A} (e : Exn) : M A := fun p => (Throw e, p).

(** [try { m } catch (e) { h e }] *)
Definition tryCatch {A} (m : M A) (h : Exn -> M A) : M A :=
  fun p => match m p with
           | (Ok a, p') => (Ok a, p')
           | (Throw e, p') => h e p'
           end.

(** [try { m } finally { f }] *)
Definition tryFinally {A} (m : M A) (f : M unit) : M A :=
  fun p => match m p with
           | (r, p') => match f p' with
                        | (Ok _, p'') => (r, p'')
                        | (Throw e, p'') => (Throw e, p'')
                        end
           end.

Declare Scope handler_scope.
Delimit Scope handler_scope with handler.
Notation "x <- m ;; k" := (bind m (fun x => k))
  (at level 61, m at next level, right associativity) : handler_scope.
Notation "m ;; k" := (bind m (fun _ => k))
  (at level 61, right associativity) : handler_scope.
Open Scope handler_scope.

(** A value that is computed, or thrown, without leaving the page. *)
Definition lift {A} (r : Result A) : M A := fun p => (r, p).

(** [await] of a call to a collaborator: the call is journalled, then
    its answer is returned or thrown. *)
Definition await {A} (c : Call) (r : Result A) : M A :=
  fun p => (r, mkPage (app p) (minter p) (calls p ++ [c]) (console p)).

(** [console.error(label, ...)] *)
Definition consoleError (label : string) : M unit :=
  fun p => (Ok tt, mkPage (app p) (minter p) (calls p) (console p ++ [label])).

(** The page a handler leaves behind.  A rejection of the promise of an
    [async] handler is observed by nobody. *)
Definition exec {A} (m : M A) (p : Page) : Page := snd (m p).

(** A call to an [async] function whose promise is dropped. *)
Definition detach {A} (m : M A) : M unit := fun p => (Ok tt, exec m p).

(* ================================================================== *)
(** ** State setters *)
(* ================================================================== *)

Definition onApp (f : AppState.t -> AppState.t) : M unit :=
  fun p => (Ok tt, mkPage (f (app p)) (minter p) (calls p) (console p)).

Definition onMinter (f : MinterState.t -> MinterState.t) : M unit :=
  fun p => (Ok tt, mkPage (app p) (f (minter p)) (calls p) (console p)).

Definition readApp : M AppState.t := fun p => (Ok (app p), p).
Definition readMinter : M MinterState.t := fun p => (Ok (minter p), p).

Import AppState MinterState.

Definition setNfts (f : list NFT.t -> list NFT.t) : M unit :=
  onApp (fun a => AppState.mk (f (nfts a)) (loading a) (error a) (account a) (isConnecting a)).
Definition setLoading (b : bool) : M unit :=
  onApp (fun a => AppState.mk (nfts a) b (error a) (account a) (isConnecting a)).
Definition setError (e : option string) : M unit :=
  onApp (fun a => AppState.mk (nfts a) (loading a) e (account a) (isConnecting a)).
Definition setAccount (x : option string) : M unit :=
  onApp (fun a => AppState.mk (nfts a) (loading a) (error a) x (isConnecting a)).
Definition setIsConnecting (b : bool) : M unit :=
  onApp (fun a => AppState.mk (nfts a) (loading a) (error a) (account a) b).

Definition setFile (x : option File) : M unit :=
  onMinter (fun m => MinterState.mk x (name m) (description m) (contract m) (signer m)
                       (mintingState m) (previewUrl m)).
Definition setName (x : string) : M unit :=
  onMinter (fun m => MinterState.mk (file m) x (description m) (contract m) (signer m)
                       (mintingState m) (previewUrl m)).
Definition setDescription (x : string) : M unit :=
  onMinter (fun m => MinterState.mk (file m) (name m) x (contract m) (signer m)
                       (mintingState m) (previewUrl m)).
Definition setContract (x : option Contract) : M unit :=
  onMinter (fun m => MinterState.mk (file m) (name m) (description m) x (signer m)
                       (mintingState m) (previewUrl m)).
Definition setSigner (x : option Signer) : M unit :=
  onMinter (fun m => MinterState.mk (file m) (name m) (description m) (contract m) x
                       (mintingState m) (previewUrl m)).
Definition setMintingState (x : MintingState.t) : M unit :=
  onMinter (fun m => MinterState.mk (file m) (name m) (description m) (contract m) (signer m)
                       x (previewUrl m)).
Definition setPreviewUrl (x : option string) : M unit :=
  onMinter (fun m => MinterState.mk (file m) (name m) (description m) (contract m) (signer m)
                       (mintingState m) x).

(** [!!account] for [account : string | null]: [None] stands for [null]
    and for [undefined]; the empty string is falsy too. *)
Definition present (x : option string) : bool :=
  match x with
  | Some s => negb (s =? "")%string
  | None => false
  end.

Definition isSome {A} (x : option A) : bool :=
  match x with Some _ => true | None => false end.

(** [Object.is] on two values of [account], as React compares
    dependencies. *)
Definition sameAccount (x y : option string) : bool :=
  match x, y with
  | Some a, Some b => (a =? b)%string
  | None, None => true
  | _, _ => false
  end.

(* ================================================================== *)
(** ** Component NFTMinter *)
(* ================================================================== *)

Module NFTMinter.
Section Component.
Variable w : World.
(** The props. *)
Variable onNFTCreated : NFT.t -> M unit.
Variable account : option string.

(** The effect on [[account]]. *)
Definition init : M unit :=
  match ethereum w with
  | Some eth =>
      if present account then
        tryCatch
          (s <- await GetSigner (getSigner eth) ;;
           setSigner (Some s) ;;
           let contractInstance :=
             Build_Contract NFT_MINTER_CONTRACT_ADDRESS NFT_MINTER_ABI s in
           setContract (Some contractInstance))
          (fun _ =>
             consoleError "Error initializing provider and contract:" ;;
             setMintingState
               (MintingState.mk false (Some "Failed to initialize wallet connection") false))
      else ret tt
  | None => ret tt
  end.

(** The listener of [accountsChanged]. *)
Definition handleAccountsChanged (accounts : list string) : M unit :=
  if (Z.of_nat (List.length accounts) =? 0) then
    setSigner None ;;
    setContract None
  else
    match ethereum w with
    | Some eth =>
        s <- await GetSigner (getSigner eth) ;;
        let contractInstance :=
          Build_Contract NFT_MINTER_CONTRACT_ADDRESS NFT_MINTER_ABI s in
        setSigner (Some s) ;;
        setContract (Some contractInstance)
    | None => throw (JsError "invalid EIP-1193 provider")
    end.

(** The listener of [chainChanged]. *)
Definition handleChainChanged : M unit := await Reload (Ok tt).

(** [e.target.files] as the list of the chosen files. *)
Definition handleFileChange (files : list File) : M unit :=
  match files with
  | f :: _ =>
      setFile (Some f) ;;
      setPreviewUrl (Some (createObjectURL w f))
  | [] => ret tt
  end.

Definition mintErrorMessage (e : Exn) : string :=
  match e with
  | JsError message => message
  | JsThrown _ => "Failed to mint NFT"
  end.

Definition handleMint : M unit :=
  st <- readMinter ;;
  match file st, negb (name st =? "")%string, negb (description st =? "")%string with
  | Some f, true, true =>
      match present account, contract st, signer st with
      | true, Some c, Some _ =>
          setMintingState (MintingState.mk true None false) ;;
          tryCatch
            (imageUri <- await (UploadToIPFS f) (uploadToIPFS w f) ;;
             let metadata := NFTMetadata.mk (name st) (description st) imageUri in
             metadataUri <- await (UploadMetadataToIPFS metadata)
                                  (uploadMetadataToIPFS w metadata) ;;
             tx <- await (MintNFT metadataUri) (mintNFT w metadataUri) ;;
             _ <- await (TxWait tx) (wait w tx) ;;
             onNFTCreated
               (NFT.mk (JStr (name st)) (JStr (description st)) (JStr imageUri)) ;;
             setMintingState (MintingState.mk false None true) ;;
             setFile None ;;
             setName "" ;;
             setDescription "" ;;
             setPreviewUrl None)
            (fun e =>
               consoleError "Error minting NFT:" ;;
               setMintingState (MintingState.mk false (Some (mintErrorMessage e)) false))
      | _, _, _ =>
          setMintingState
            (MintingState.mk false (Some "Please connect your wallet first") false)
      end
  | _, _, _ =>
      setMintingState (MintingState.mk false (Some "Please fill in all fields") false)
  end.
End Component.
End NFTMinter.

(* ================================================================== *)
(** ** Component App *)
(* ================================================================== *)

Module App.
Section Component.
Variable w : World.

Definition connectWallet : M unit :=
  match ethereum w with
  | None => setError (Some "Please install MetaMask to use this application")
  | Some eth =>
      setIsConnecting true ;;
      tryFinally
        (tryCatch
           (accounts <- await RequestAccounts (eth_requestAccounts eth) ;;
            setAccount (hd_error accounts) ;;
            setError None)
           (fun _ =>
              consoleError "Error connecting wallet:" ;;
              setError (Some "Failed to connect wallet. Please try again.") ;;
              setAccount None))
        (setIsConnecting false)
  end.

(** The first effect, run once at mount: the passive check. *)
Definition checkConnection : M unit :=
  match ethereum w with
  | Some eth =>
      tryCatch
        (s <- await GetSigner (getSigner eth) ;;
         address <- await GetAddress (getAddress eth s) ;;
         setAccount (Some address) ;;
         setError None)
        (fun _ =>
           consoleError "Error checking connection:" ;;
           setAccount None)
  | None => ret tt
  end.

(** The listener of [accountsChanged]: [setAccount(accounts[0] || null)]. *)
Definition handleAccountsChanged (accounts : list string) : M unit :=
  setAccount (if present (hd_error accounts) then hd_error accounts else None).

(** The listener of [chainChanged]. *)
Definition handleChainChanged : M unit := await Reload (Ok tt).

Definition fetchErrorMessage (e : Exn) : string :=
  match e with
  | JsError message => message
  | JsThrown _ => "Failed to fetch NFTs"
  end.

Definition defaultDescription : JsValue :=
  JStr "This is an NFT minted on the Westend Asset Hub".

Definition defaultImage : string :=
  "https://w3s.link/ipfs/QmXoypizjW3WknFiJnKLwHCnL72vedxjQkDDP1mXWo6uco".

(** The innermost [try]: the location string read as a data URI holding
    a base64 JSON document.  [atob] receives its argument converted to a
    string, so a missing second piece reaches it as ["undefined"]. *)
Definition inlineMetadata (tokenId : Z) (uri : string) : M (list NFT.t) :=
  let data := nth_error (split "," uri) 1 in
  decodedData <- lift (atob w (match data with Some d => d | None => "undefined" end)) ;;
  metadata <- lift (JSON_parse w decodedData) ;;
  n <- lift (getProp metadata "name") ;;
  d <- lift (getProp metadata "description") ;;
  i <- lift (getProp metadata "image") ;;
  ret [NFT.mk (jsOr n (JStr ("NFT #" ++ toString tokenId)))
              (jsOr d defaultDescription)
              i].

(** The fallback in its [catch]: the location string read as a content
    identifier and fetched through the gateway. *)
Definition ipfsMetadata (tokenId : Z) (uri : string) : M (list NFT.t) :=
  response <- await (Fetch (getIpfsUrl w (replace "ipfs://" "" uri)))
                    (fetch w (getIpfsUrl w (replace "ipfs://" "" uri))) ;;
  (if ok response then ret tt
   else throw (JsError ("Failed to fetch metadata: " ++ statusText response))) ;;
  metadata <- await ResponseJson (json response) ;;
  n <- lift (getProp metadata "name") ;;
  d <- lift (getProp metadata "description") ;;
  i <- lift (getProp metadata "image") ;;
  img <- (if truthy i
          then (r <- lift (replaceOf i "ipfs://" "") ;; ret (getIpfsUrl w r))
          else ret defaultImage) ;;
  ret [NFT.mk (jsOr n (JStr ("NFT #" ++ toString tokenId)))
              (jsOr d defaultDescription)
              (JStr img)].

(** The [try] around the single token: what ends up in [nftPromises].
    Each [push] is the last statement of its block and its argument is
    evaluated before it, so the array holds what the block returns. *)
Definition resolveToken (currentId : Z) : M (list NFT.t) :=
  tryCatch
    (let tokenId := currentId - 1 in
     uri <- await (TokenURI tokenId) (tokenURI w tokenId) ;;
     tryCatch
       (inlineMetadata tokenId uri)
       (fun _ =>
          consoleError "Error processing metadata:" ;;
          tryCatch
            (ipfsMetadata tokenId uri)
            (fun _ => consoleError "Error fetching from IPFS:" ;; ret [])))
    (fun _ => consoleError "Error fetching token:" ;; ret []).

(** The second effect, run at mount and whenever [account] changes.
    [account] is the value the closure of the effect captured: the one
    of the render that scheduled it.  The contract handle built from the
    signer is local, and building it calls nobody. *)
Definition fetchNFTs (account : option string) : M unit :=
  if negb (present account) then setLoading false
  else
    tryFinally
      (tryCatch
         (match ethereum w with
          | None => throw (JsError "Please install MetaMask")
          | Some eth =>
              _ <- await GetSigner (getSigner eth) ;;
              tryCatch
                (currentId <- await GetItemId (getItemId w) ;;
                 if (toString currentId =? "0")%string then
                   setNfts (fun _ => []) ;;
                   setLoading false
                 else
                   nftPromises <- resolveToken currentId ;;
                   setNfts (fun _ => nftPromises))
                (fun _ =>
                   consoleError "Error getting tokens:" ;;
                   setError (Some "Could not fetch your NFTs. Please try again later."))
          end)
         (fun err =>
            consoleError "Error fetching NFTs:" ;;
            setError (Some (fetchErrorMessage err))))
      (setLoading false).

Definition handleNFTCreated (nft : NFT.t) : M unit :=
  setNfts (fun prev => (prev ++ [nft])%list).

(** *** The page as React and the provider drive it *)

(** The [Mint NFT] button: [NFTMinter] is rendered with
    [onNFTCreated={handleNFTCreated}] and [account={account}]. *)
Definition handleMint : M unit :=
  a <- readApp ;;
  NFTMinter.handleMint w handleNFTCreated (account a).

(** The effects that depend on [account], the child's before the
    parent's, each with the account of the render that scheduled it. *)
Definition accountEffects : M unit :=
  a <- readApp ;;
  detach (NFTMinter.init w (account a)) ;;
  detach (fetchNFTs (account a)).

(** A handler, then the render it causes: the effects run again when
    [account] is not the same as before. *)
Definition thenRender (handler : M unit) : M unit :=
  a <- readApp ;;
  handler ;;
  a' <- readApp ;;
  if sameAccount (account a) (account a') then ret tt else accountEffects.

(** The provider emits [accountsChanged]: both listeners run (the
    child's was registered first), then the render. *)
Definition accountsChanged (accounts : list string) : M unit :=
  thenRender
    (detach (NFTMinter.handleAccountsChanged w accounts) ;;
     handleAccountsChanged accounts).

(** The [Connect Wallet] button. *)
Definition connect : M unit := thenRender (detach connectWallet).

(** The mount: every effect once, the child's first.  [checkConnection]
    is suspended at its first [await] before it writes anything, so the
    load of the first render runs before it resumes. *)
Definition mount : M unit :=
  thenRender
    (a <- readApp ;;
     detach (NFTMinter.init w (account a)) ;;
     detach (fetchNFTs (account a)) ;;
     detach checkConnection).

(** What the gallery section renders.  Each card puts [{nft.name}] and
    [{nft.description}] in an element; when one of them is not
    renderable the render throws and, no error boundary being there,
    React unmounts the page. *)
Inductive View : Type :=
| ConnectButton
| Spinner
| Gallery (banner : option string) (items : list NFT.t)
| Unmounted.

Definition view (a : AppState.t) : View :=
  if present (account a) then
    if loading a then Spinner
    else if forallb (fun nft => renderable (NFT.name nft) && renderable (NFT.description nft))
                    (nfts a)
         then Gallery (error a) (nfts a)
         else Unmounted
  else ConnectButton.

End Component.
End App.


(* ================================================================== *)
(** ** Sessions *)
(* ================================================================== *)

(** What the user and the provider can do to a mounted page.  The
    listeners are registered at mount only when a provider is injected,
    so without one [accountsChanged] reaches nobody. *)
Inductive Action : Type :=
| Connect
| Mint
| ChooseFile (files : list File)
| TypeName (s : string)
| TypeDescription (s : string)
| AccountsChanged (accounts : list string).

Definition act (w : World) (x : Action) : M unit :=
  match x with
  | Connect => App.connect w
  | Mint => detach (App.handleMint w)
  | ChooseFile files => NFTMinter.handleFileChange w files
  | TypeName s => setName s
  | TypeDescription s => setDescription s
  | AccountsChanged accounts =>
      match ethereum w with
      | Some _ => App.accountsChanged w accounts
      | None => ret tt
      end
  end.

Fixpoint run (w : World) (xs : list Action) (p : Page) : Page :=
  match xs with
  | [] => p
  | x :: xs' => run w xs' (exec (act w x) p)
  end.

(** The page after the mount and the actions [xs]. *)
Definition session (w : World) (xs : list Action) : Page :=
  run w xs (exec (App.mount w) initialPage).

(** A session in which the collaborators may answer differently at each
    step: the mount runs in [w0], each action in the world paired with
    it.  The listeners of [accountsChanged] are registered by the mount,
    so they exist when [w0] has a provider. *)
Definition actFrom (w0 w : World) (x : Action) : M unit :=
  match x with
  | AccountsChanged accounts =>
      match ethereum w0 with
      | Some _ => App.accountsChanged w accounts
      | None => ret tt
      end
  | _ => act w x
  end.

Fixpoint runs (w0 : World) (steps : list (World * Action)) (p : Page) : Page :=
  match steps with
  | [] => p
  | (w, x) :: steps' => runs w0 steps' (exec (actFrom w0 w x) p)
  end.

Definition journey (w0 : World) (steps : list (World * Action)) : Page :=
  runs w0 steps (exec (App.mount w0) initialPage).
(* ================================================================== *)
(** ** Outcomes of the collaborators *)
(* ================================================================== *)

(** A block throws, whatever page it starts from. *)
Definition throws {A} (m : M A) : Prop :=
  forall p, exists e, fst (m p) = Throw e.

(** The ways the stages of a mint can fail, for a chosen file and the
    texts of the form: the exception, and the calls made up to and
    including the one that failed. *)
Inductive MintFailure (w : World) (f : File) (n d : string) : Exn -> list Call -> Prop :=
| ImageUploadFails e :
    uploadToIPFS w f = Throw e ->
    MintFailure w f n d e [UploadToIPFS f]
| MetadataUploadFails imageUri e :
    uploadToIPFS w f = Ok imageUri ->
    uploadMetadataToIPFS w (NFTMetadata.mk n d imageUri) = Throw e ->
    MintFailure w f n d e
      [UploadToIPFS f; UploadMetadataToIPFS (NFTMetadata.mk n d imageUri)]
| MintCallFails imageUri metadataUri e :
    uploadToIPFS w f = Ok imageUri ->
    uploadMetadataToIPFS w (NFTMetadata.mk n d imageUri) = Ok metadataUri ->
    mintNFT w metadataUri = Throw e ->
    MintFailure w f n d e
      [UploadToIPFS f; UploadMetadataToIPFS (NFTMetadata.mk n d imageUri);
       MintNFT metadataUri]
| ConfirmationFails imageUri metadataUri tx e :
    uploadToIPFS w f = Ok imageUri ->
    uploadMetadataToIPFS w (NFTMetadata.mk n d imageUri) = Ok metadataUri ->
    mintNFT w metadataUri = Ok tx ->
    wait w tx = Throw e ->
    MintFailure w f n d e
      [UploadToIPFS f; UploadMetadataToIPFS (NFTMetadata.mk n d imageUri);
       MintNFT metadataUri; TxWait tx].

(** The preconditions [handleMint] checks before it uploads anything. *)
Definition mintReady (p : Page) : Prop :=
  isSome (file (minter p)) = true
  /\ name (minter p) <> ""
  /\ description (minter p) <> ""
  /\ present (account (app p)) = true
  /\ isSome (contract (minter p)) = true
  /\ isSome (signer (minter p)) = true.

(** The token reads among a list of calls. *)
Fixpoint tokenReads (cs : list Call) : list Z :=
  match cs with
  | [] => []
  | TokenURI id :: cs' => id :: tokenReads cs'
  | _ :: cs' => tokenReads cs'
  end.

(** The network fetches among a list of calls. *)
Fixpoint fetches (cs : list Call) : list string :=
  match cs with
  | [] => []
  | Fetch url :: cs' => url :: fetches cs'
  | _ :: cs' => fetches cs'
  end.

(** A block that leaves the React state alone: from every page it gives
    the same result [r], having made the calls [cs] and logged [con]. *)
Definition emits {A} (m : M A) (r : Result A) (cs : list Call) (con : list string) : Prop :=
  forall p,
    m p = (r, mkPage (app p) (minter p) (calls p ++ cs)%list (console p ++ con)%list).

(** When a block that resolves metadata returns, it returns one item. *)
Definition oneItem (r : Result (list NFT.t)) : Prop :=
  forall l, r = Ok l -> List.length l = 1%nat.

(** The resolution of token [tokenId] fails: the read of its location
    string fails, or the inline decoding and the fallback both do. *)
Definition ResolutionFails (w : World) (tokenId : Z) : Prop :=
  (exists e, tokenURI w tokenId = Throw e)
  \/ (exists uri, tokenURI w tokenId = Ok uri
                  /\ throws (App.inlineMetadata w tokenId uri)
                  /\ throws (App.ipfsMetadata w tokenId uri)).

(* ================================================================== *)
(** ** What the minting form renders, and what the calls cost *)
(* ================================================================== *)

(** [{account && (...)}]: the form is rendered for a connected account
    only. *)
Definition formShown (p : Page) : bool := present (account (app p)).

(** [disabled={mintingState.isMinting || !signer}] of the [Mint NFT]
    button. *)
Definition mintButtonDisabled (m : MinterState.t) : bool :=
  MintingState.isMinting (mintingState m) || negb (isSome (signer m)).

(** The labels of the [Mint NFT] button. *)
Inductive MintLabel : Type := LabelMinting | LabelInitializing | LabelMint.

Definition mintButtonLabel (m : MinterState.t) : MintLabel :=
  if MintingState.isMinting (mintingState m) then LabelMinting
  else if negb (isSome (signer m)) then LabelInitializing
  else LabelMint.

(** The calls that store content or send a transaction. *)
Definition spends (c : Call) : bool :=
  match c with
  | UploadToIPFS _ | UploadMetadataToIPFS _ | MintNFT _ | TxWait _ => true
  | _ => false
  end.

(** The calls a load can make: the signer request and reads. *)
Definition reads (c : Call) : bool :=
  match c with
  | GetSigner | GetItemId | TokenURI _ | Fetch _ | ResponseJson => true
  | _ => false
  end.

(** The mint calls among a list of calls. *)
Fixpoint mints (cs : list Call) : list string :=
  match cs with
  | [] => []
  | MintNFT uri :: cs' => uri :: mints cs'
  | _ :: cs' => mints cs'
  end.

(** The signer and the contract handle of the form go together: both
    unset, or the contract is the deployed one bound to the signer. *)
Definition bound (m : MinterState.t) : Prop :=
  match signer m, contract m with
  | None, None => True
  | Some s, Some c =>
      c = Build_Contract NFT_MINTER_CONTRACT_ADDRESS NFT_MINTER_ABI s
  | _, _ => False
  end.

(** No separator in a string. *)
Fixpoint free (sep : ascii) (s : string) : bool :=
  match s with
  | EmptyString => true
  | String c s' => negb (Ascii.eqb c sep) && free sep s'
  end.

(** The form with another minting state. *)
Definition withMinting (ms : MintingState.t) (m : MinterState.t) : MinterState.t :=
  MinterState.mk (file m) (name m) (description m) (contract m) (signer m) ms (previewUrl m).

(** The four ways a press of [Mint NFT] can end, with the page it
    leaves. *)
Inductive MintOutcome (w : World) (p : Page) : Page -> Prop :=
| MintRejectedFields :
    file (minter p) = None \/ name (minter p) = "" \/ description (minter p) = "" ->
    MintOutcome w p
      (mkPage (app p)
         (withMinting (MintingState.mk false (Some "Please fill in all fields") false)
            (minter p))
         (calls p) (console p))
| MintRejectedWallet :
    isSome (file (minter p)) = true ->
    name (minter p) <> "" ->
    description (minter p) <> "" ->
    present (account (app p)) = false
    \/ contract (minter p) = None \/ signer (minter p) = None ->
    MintOutcome w p
      (mkPage (app p)
         (withMinting (MintingState.mk false (Some "Please connect your wallet first") false)
            (minter p))
         (calls p) (console p))
| MintFailed f e made :
    mintReady p ->
    file (minter p) = Some f ->
    MintFailure w f (name (minter p)) (description (minter p)) e made ->
    MintOutcome w p
      (mkPage (app p)
         (withMinting
            (MintingState.mk false (Some (NFTMinter.mintErrorMessage e)) false)
            (minter p))
         (calls p ++ made)%list (console p ++ ["Error minting NFT:"])%list)
| MintSucceeded f imageUri metadataUri tx receipt :
    mintReady p ->
    file (minter p) = Some f ->
    uploadToIPFS w f = Ok imageUri ->
    uploadMetadataToIPFS w
      (NFTMetadata.mk (name (minter p)) (description (minter p)) imageUri) = Ok metadataUri ->
    mintNFT w metadataUri = Ok tx ->
    wait w tx = Ok receipt ->
    MintOutcome w p
      (mkPage
         (AppState.mk
            (nfts (app p)
             ++ [NFT.mk (JStr (name (minter p))) (JStr (description (minter p)))
                        (JStr imageUri)])%list
            (loading (app p)) (error (app p)) (account (app p)) (isConnecting (app p)))
         (MinterState.mk None "" "" (contract (minter p)) (signer (minter p))
            (MintingState.mk false None true) None)
         (calls p
          ++ [UploadToIPFS f;
              UploadMetadataToIPFS
                (NFTMetadata.mk (name (minter p)) (description (minter p)) imageUri);
              MintNFT metadataUri; TxWait tx])%list
         (console p)).

(** From one page to a later one, nothing was stored and no transaction
    was sent. *)
Definition quietly (p p' : Page) : Prop :=
  exists made, calls p' = (calls p ++ made)%list /\ filter spends made = [].

(** From one page to a later one, the signer and the contract stayed
    together. *)
Definition keepsBound (p p' : Page) : Prop :=
  bound (minter p) -> bound (minter p').

(* ================================================================== *)
(** ** Sample worlds and pages *)
(* ================================================================== *)

Module Sample.

Definition alice : string := "0xA11ce".
Definition bob : string := "0xB0b".

Definition wallet : EthereumProvider :=
  {| eth_requestAccounts := Ok [alice];
     getSigner := Ok (Build_Signer alice);
     getAddress := fun s => Ok (signerAddress s) |}.

(** A wallet whose access prompt is declined. *)
Definition decliningWallet : EthereumProvider :=
  {| eth_requestAccounts := Throw (JsError "User rejected the request.");
     getSigner := Ok (Build_Signer alice);
     getAddress := fun s => Ok (signerAddress s) |}.

Definition document : JsValue :=
  JObj [("name", JStr "Sunrise"); ("description", JStr "Dawn over the bay");
        ("image", JStr "ipfs://QmImage")].

(** A world where every collaborator answers: three tokens minted, the
    location strings are content identifiers, the gateway serves
    [document]. *)
Definition world : World :=
  {| ethereum := Some wallet;
     getItemId := Ok 3;
     tokenURI := fun id => Ok ("ipfs://QmToken" ++ toString id);
     mintNFT := fun uri => Ok (Build_Tx ("0xhash:" ++ uri));
     wait := fun _ => Ok (JObj [("status", JNum 1)]);
     atob := fun _ => Throw (JsError "The string to be decoded is not correctly encoded.");
     JSON_parse := fun _ => Throw (JsError "Unexpected token");
     fetch := fun _ => Ok (Build_Response true "OK" (Ok document));
     getIpfsUrl := fun cid => "https://w3s.link/ipfs/" ++ cid;
     uploadToIPFS := fun f => Ok ("ipfs://Qm" ++ fileName f);
     uploadMetadataToIPFS := fun m => Ok ("ipfs://QmMeta" ++ NFTMetadata.name m);
     createObjectURL := fun f => "blob:" ++ fileName f |}.

Definition withWallet (eth : option EthereumProvider) (w : World) : World :=
  {| ethereum := eth;
     getItemId := getItemId w; tokenURI := tokenURI w; mintNFT := mintNFT w;
     wait := wait w; atob := atob w; JSON_parse := JSON_parse w; fetch := fetch w;
     getIpfsUrl := getIpfsUrl w; uploadToIPFS := uploadToIPFS w;
     uploadMetadataToIPFS := uploadMetadataToIPFS w;
     createObjectURL := createObjectURL w |}.

Definition withCounter (r : Result Z) (w : World) : World :=
  {| ethereum := ethereum w;
     getItemId := r; tokenURI := tokenURI w; mintNFT := mintNFT w;
     wait := wait w; atob := atob w; JSON_parse := JSON_parse w; fetch := fetch w;
     getIpfsUrl := getIpfsUrl w; uploadToIPFS := uploadToIPFS w;
     uploadMetadataToIPFS := uploadMetadataToIPFS w;
     createObjectURL := createObjectURL w |}.

Definition withTokenURI (f : Z -> Result string) (w : World) : World :=
  {| ethereum := ethereum w;
     getItemId := getItemId w; tokenURI := f; mintNFT := mintNFT w;
     wait := wait w; atob := atob w; JSON_parse := JSON_parse w; fetch := fetch w;
     getIpfsUrl := getIpfsUrl w; uploadToIPFS := uploadToIPFS w;
     uploadMetadataToIPFS := uploadMetadataToIPFS w;
     createObjectURL := createObjectURL w |}.

Definition withFetch (f : string -> Result Response) (w : World) : World :=
  {| ethereum := ethereum w;
     getItemId := getItemId w; tokenURI := tokenURI w; mintNFT := mintNFT w;
     wait := wait w; atob := atob w; JSON_parse := JSON_parse w; fetch := f;
     getIpfsUrl := getIpfsUrl w; uploadToIPFS := uploadToIPFS w;
     uploadMetadataToIPFS := uploadMetadataToIPFS w;
     createObjectURL := createObjectURL w |}.

Definition withMint (f : string -> Result Tx) (w : World) : World :=
  {| ethereum := ethereum w;
     getItemId := getItemId w; tokenURI := tokenURI w; mintNFT := f;
     wait := wait w; atob := atob w; JSON_parse := JSON_parse w; fetch := fetch w;
     getIpfsUrl := getIpfsUrl w; uploadToIPFS := uploadToIPFS w;
     uploadMetadataToIPFS := uploadMetadataToIPFS w;
     createObjectURL := createObjectURL w |}.

(** A world whose location strings are data URIs: [Nw==] is the base64
    text of the JSON document [7]. *)
Definition inlineWorld : World :=
  {| ethereum := Some wallet;
     getItemId := Ok 3;
     tokenURI := fun _ => Ok "data:application/json;base64,Nw==";
     mintNFT := mintNFT world;
     wait := wait world;
     atob := fun s => if (s =? "Nw==")%string then Ok "7" else atob world s;
     JSON_parse := fun s => if (s =? "7")%string then Ok (JNum 7) else JSON_parse world s;
     fetch := fetch world;
     getIpfsUrl := getIpfsUrl world;
     uploadToIPFS := uploadToIPFS world;
     uploadMetadataToIPFS := uploadMetadataToIPFS world;
     createObjectURL := createObjectURL world |}.

Definition picture : File := {| fileName := "sunrise.png"; fileBytes := "PNG" |}.

Definition aliceContract : Contract :=
  Build_Contract NFT_MINTER_CONTRACT_ADDRESS NFT_MINTER_ABI (Build_Signer alice).

Definition oldItem : NFT.t := NFT.mk (JStr "Old") (JStr "Minted by alice") (JStr "ipfs://QmOld").

(** Alice is connected, her gallery shows one item, the form is empty. *)
Definition connected : Page :=
  mkPage (AppState.mk [oldItem] false None (Some alice) false)
         (MinterState.mk None "" "" (Some aliceContract) (Some (Build_Signer alice))
                         (MintingState.mk false None false) None)
         [] [].

(** The same, the form filled in. *)
Definition filled : Page :=
  mkPage (app connected)
         (MinterState.mk (Some picture) "Sunrise" "Dawn over the bay"
                         (Some aliceContract) (Some (Build_Signer alice))
                         (MintingState.mk false None false) (Some "blob:sunrise.png"))
         [] [].

End Sample.

(* ================================================================== *)
(** ** Running the handlers on the samples *)
(* ================================================================== *)

Example toString_samples :
  (toString 0, toString 42, toString (-7)) = ("0", "42", "-7").
Proof. reflexivity. Qed.

Example split_samples :
  split "," "data:application/json;base64,e30=" = ["data:application/json;base64"; "e30="]
  /\ split "," "ipfs://QmToken" = ["ipfs://QmToken"]
  /\ split "," "" = [""]
  /\ split "," "a,,b" = ["a"; ""; "b"].
Proof. repeat split. Qed.

Example replace_samples :
  replace "ipfs://" "" "ipfs://QmToken" = "QmToken"
  /\ replace "ipfs://" "" "QmToken" = "QmToken"
  /\ replace "ipfs://" "" "x-ipfs://a/ipfs://b" = "x-a/ipfs://b".
Proof. repeat split. Qed.

Example mint_sample :
  let p := exec (App.handleMint Sample.world) Sample.filled in
  nfts (app p)
    = [Sample.oldItem;
       NFT.mk (JStr "Sunrise") (JStr "Dawn over the bay") (JStr "ipfs://Qmsunrise.png")]
  /\ minter p
     = MinterState.mk None "" "" (Some Sample.aliceContract) (Some (Build_Signer Sample.alice))
                      (MintingState.mk false None true) None
  /\ calls p
     = [UploadToIPFS Sample.picture;
        UploadMetadataToIPFS
          (NFTMetadata.mk "Sunrise" "Dawn over the bay" "ipfs://Qmsunrise.png");
        MintNFT "ipfs://QmMetaSunrise";
        TxWait (Build_Tx "0xhash:ipfs://QmMetaSunrise")].
Proof. repeat split. Qed.

Example load_sample :
  let p := exec (App.fetchNFTs Sample.world (Some Sample.alice)) Sample.connected in
  nfts (app p)
    = [NFT.mk (JStr "Sunrise") (JStr "Dawn over the bay")
              (JStr "https://w3s.link/ipfs/QmImage")]
  /\ calls p
     = [GetSigner; GetItemId; TokenURI 2; Fetch "https://w3s.link/ipfs/QmToken2"; ResponseJson]
  /\ console p = ["Error processing metadata:"].
Proof. repeat split. Qed.

(** A document without the three fields: the fallbacks of [||] fill the
    name and the description, the image stays [undefined]. *)
Example inline_load_sample :
  let p := exec (App.fetchNFTs Sample.inlineWorld (Some Sample.alice)) Sample.connected in
  nfts (app p)
    = [NFT.mk (JStr "NFT #2") (JStr "This is an NFT minted on the Westend Asset Hub")
              JUndefined]
  /\ calls p = [GetSigner; GetItemId; TokenURI 2]
  /\ console p = [].
Proof. repeat split. Qed.

Example mount_sample :
  let p := session Sample.world [] in
  account (app p) = Some Sample.alice
  /\ signer (minter p) = Some (Build_Signer Sample.alice)
  /\ App.view (app p)
     = App.Gallery None
         [NFT.mk (JStr "Sunrise") (JStr "Dawn over the bay")
                 (JStr "https://w3s.link/ipfs/QmImage")].
Proof. repeat split. Qed.

Example switch_sample :
  let p := session Sample.world [AccountsChanged [Sample.bob]] in
  account (app p) = Some Sample.bob
  /\ calls p
     = [GetSigner; GetAddress;
        GetSigner; GetSigner; GetItemId; TokenURI 2;
        Fetch "https://w3s.link/ipfs/QmToken2"; ResponseJson;
        GetSigner;
        GetSigner; GetSigner; GetItemId; TokenURI 2;
        Fetch "https://w3s.link/ipfs/QmToken2"; ResponseJson].
Proof. repeat split. Qed.

(* ================================================================== *)
(** ** Facts about the builtins *)
(* ================================================================== *)

Lemma to_int_proper (n : Z) : Z.to_int n <> Pos Nil /\ Z.to_int n <> Neg Nil.
Proof.
  destruct n as [|q|q]; cbn; split; try discriminate;
    intros H; injection H as H; exact (Unsigned.to_uint_nonnil q H).
Qed.

Lemma toString_inj (n m : Z) : toString n = toString m -> n = m.
Proof.
  unfold toString. intros H.
  apply to_int_inj.
  assert (E : NilZero.int_of_string (NilZero.string_of_int (Z.to_int n))
              = NilZero.int_of_string (NilZero.string_of_int (Z.to_int m)))
    by (rewrite H; reflexivity).
  destruct (to_int_proper n) as [Hn1 Hn2].
  destruct (to_int_proper m) as [Hm1 Hm2].
  rewrite !NilZero.isi in E by assumption.
  now injection E.
Qed.

(** [currentId.toString() === '0'] holds for zero only. *)
Lemma toString_zero (n : Z) : (toString n =? "0")%string = (n =? 0).
Proof.
  destruct (Z.eqb_spec n 0) as [->|Hn].
  - reflexivity.
  - apply String.eqb_neq. intros H. apply Hn.
    apply toString_inj. exact H.
Qed.

Lemma present_Some (x : option string) :
  present x = true -> exists s, x = Some s /\ s <> "".
Proof.
  destruct x as [s|]; cbn; [|discriminate].
  intros H. exists s. split; [reflexivity|].
  intros ->. discriminate.
Qed.

(* ================================================================== *)
(** ** Laws of the monad *)
(* ================================================================== *)

Section Laws.
Context {A B : Type}.

Lemma bind_Ok (m : M A) (k : A -> M B) p a p' :
  m p = (Ok a, p') -> bind m k p = k a p'.
Proof. unfold bind. now intros ->. Qed.

Lemma bind_Throw (m : M A) (k : A -> M B) p e p' :
  m p = (Throw e, p') -> bind m k p = (Throw e, p').
Proof. unfold bind. now intros ->. Qed.

Lemma tryCatch_Ok (m : M A) h p a p' :
  m p = (Ok a, p') -> tryCatch m h p = (Ok a, p').
Proof. unfold tryCatch. now intros ->. Qed.

Lemma tryCatch_Throw (m : M A) h p e p' :
  m p = (Throw e, p') -> tryCatch m h p = h e p'.
Proof. unfold tryCatch. now intros ->. Qed.

Lemma await_run (c : Call) (r : Result A) p :
  await c r p = (r, mkPage (app p) (minter p) (calls p ++ [c]) (console p)).
Proof. reflexivity. Qed.

End Laws.

(* ================================================================== *)
(** ** Blocks that only call out and log *)
(* ================================================================== *)

Section Emits.
Context {A B : Type}.

Lemma emits_ret (a : A) : emits (ret a) (Ok a) [] [].
Proof. intros [a0 m0 cs con]; unfold ret; cbn. now rewrite !app_nil_r. Qed.

Lemma emits_lift (r : Result A) : emits (lift r) r [] [].
Proof. intros [a0 m0 cs con]; unfold lift; cbn. now rewrite !app_nil_r. Qed.

Lemma emits_throw (e : Exn) : emits (@throw A e) (Throw e) [] [].
Proof. intros [a0 m0 cs con]; unfold throw; cbn. now rewrite !app_nil_r. Qed.

Lemma emits_await (c : Call) (r : Result A) : emits (await c r) r [c] [].
Proof. intros [a0 m0 cs con]; unfold await; cbn. now rewrite !app_nil_r. Qed.

Lemma emits_bind_Ok (m : M A) (k : A -> M B) a cs con r cs' con' :
  emits m (Ok a) cs con -> emits (k a) r cs' con' ->
  emits (bind m k) r (cs ++ cs') (con ++ con').
Proof.
  intros Hm Hk p. unfold bind. rewrite Hm, Hk; cbn.
  now rewrite !app_assoc.
Qed.

Lemma emits_bind_Throw (m : M A) (k : A -> M B) e cs con :
  emits m (Throw e) cs con -> emits (bind m k) (Throw e) cs con.
Proof. intros Hm p. unfold bind. now rewrite Hm. Qed.

Lemma emits_tryCatch_Ok (m : M A) h a cs con :
  emits m (Ok a) cs con -> emits (tryCatch m h) (Ok a) cs con.
Proof. intros Hm p. unfold tryCatch. now rewrite Hm. Qed.

Lemma emits_tryCatch_Throw (m : M A) h e cs con r cs' con' :
  emits m (Throw e) cs con -> emits (h e) r cs' con' ->
  emits (tryCatch m h) r (cs ++ cs') (con ++ con').
Proof.
  intros Hm Hh p. unfold tryCatch. rewrite Hm, Hh; cbn.
  now rewrite !app_assoc.
Qed.

(** What a block emits is determined by the block. *)
Lemma emits_result (m : M A) r cs con p :
  emits m r cs con -> fst (m p) = r.
Proof. intros H. now rewrite H. Qed.

End Emits.

Lemma emits_consoleError (label : string) : emits (consoleError label) (Ok tt) [] [label].
Proof. intros [a0 m0 cs con]; unfold consoleError; cbn. now rewrite !app_nil_r. Qed.

(** A handler of a [catch] that logs and gives up with an empty list. *)
Lemma emits_log_and_give_up {A} (label : string) :
  emits (consoleError label ;; ret (@nil A)) (Ok []) [] [label].
Proof.
  change (@nil Call) with (@nil Call ++ [])%list.
  change [label] with ([label] ++ [])%list.
  eapply emits_bind_Ok; [apply emits_consoleError | apply emits_ret].
Qed.

(** Sequencing and catching, by cases on the result of the first
    block; [Q] is what is being established of the whole. *)
Lemma emits_bind_cases {A B} (m : M A) (k : A -> M B) rm cs con
      (Q : Result B -> list Call -> list string -> Prop) :
  emits m rm cs con ->
  (forall e, rm = Throw e -> Q (Throw e) cs con) ->
  (forall a, rm = Ok a ->
     exists r cs' con', emits (k a) r cs' con' /\ Q r (cs ++ cs')%list (con ++ con')%list) ->
  exists r cs'' con'', emits (bind m k) r cs'' con'' /\ Q r cs'' con''.
Proof.
  intros Hm HT HO. destruct rm as [a|e].
  - destruct (HO a eq_refl) as (r & cs' & con' & Hk & HQ).
    exists r, (cs ++ cs')%list, (con ++ con')%list. split; [|exact HQ].
    eapply emits_bind_Ok; eassumption.
  - exists (Throw e), cs, con. split; [|now apply HT].
    now apply emits_bind_Throw.
Qed.

Lemma emits_tryCatch_cases {A} (m : M A) (h : Exn -> M A) rm cs con
      (Q : Result A -> list Call -> list string -> Prop) :
  emits m rm cs con ->
  (forall a, rm = Ok a -> Q (Ok a) cs con) ->
  (forall e, rm = Throw e ->
     exists r cs' con', emits (h e) r cs' con' /\ Q r (cs ++ cs')%list (con ++ con')%list) ->
  exists r cs'' con'', emits (tryCatch m h) r cs'' con'' /\ Q r cs'' con''.
Proof.
  intros Hm HO HT. destruct rm as [a|e].
  - exists (Ok a), cs, con. split; [|now apply HO].
    now apply emits_tryCatch_Ok.
  - destruct (HT e eq_refl) as (r & cs' & con' & Hh & HQ).
    exists r, (cs ++ cs')%list, (con ++ con')%list. split; [|exact HQ].
    eapply emits_tryCatch_Throw; eassumption.
Qed.

(** One statement of a block: split on its result, keep the case where
    it returns and close the one where it throws with [tac]. *)
(** A computed value passed through a function. *)
Lemma emits_lift_map {A B} (x : Result A) (f : A -> B) :
  emits (a <- lift x ;; ret (f a))
        (match x with Ok a => Ok (f a) | Throw e => Throw e end) [] [].
Proof.
  destruct x as [a|e].
  - change (@nil Call) with (@nil Call ++ [])%list.
    change (@nil string) with (@nil string ++ [])%list.
    eapply emits_bind_Ok; [apply emits_lift | apply emits_ret].
  - apply emits_bind_Throw, emits_lift.
Qed.

Ltac emits_leaf :=
  first [ apply emits_lift_map | apply emits_lift | apply emits_await
        | apply emits_ret | apply emits_throw | apply emits_consoleError ].

(** One statement of a block: split on its result, keep the case where
    it returns and close the one where it throws with [tac]. *)
Ltac emits_step tac :=
  eapply emits_bind_cases;
  [ emits_leaf
  | intros ? ?; try discriminate; cbn; tac
  | intros ? ?; try discriminate; cbn ].

Ltac emits_done tac :=
  do 3 eexists; split; [ emits_leaf | cbn; tac ].

(* ================================================================== *)
(** ** The resolution of the latest token *)
(* ================================================================== *)

Section Resolution.
Variable w : World.

(** The inline attempt calls nobody and logs nothing. *)
Lemma inlineMetadata_emits (tokenId : Z) (uri : string) :
  exists r cs con,
    emits (App.inlineMetadata w tokenId uri) r cs con
    /\ (cs = [] /\ con = [] /\ oneItem r).
Proof.
  unfold App.inlineMetadata, oneItem.
  emits_step ltac:(repeat split; discriminate).
  emits_step ltac:(repeat split; discriminate).
  emits_step ltac:(repeat split; discriminate).
  emits_step ltac:(repeat split; discriminate).
  emits_step ltac:(repeat split; discriminate).
  emits_done ltac:(repeat split; intros l [= <-]; reflexivity).
Qed.

(** The fallback makes one fetch, of the gateway address of the
    identifier, possibly followed by the read of the body. *)
Lemma ipfsMetadata_emits (tokenId : Z) (uri : string) :
  exists r cs con,
    emits (App.ipfsMetadata w tokenId uri) r cs con
    /\ (tokenReads cs = []
        /\ fetches cs = [getIpfsUrl w (replace "ipfs://" "" uri)]
        /\ con = [] /\ oneItem r).
Proof.
  unfold App.ipfsMetadata, oneItem.
  emits_step ltac:(repeat split; discriminate).
  destruct (ok a).
  2:{ emits_step ltac:(repeat split; discriminate). }
  emits_step ltac:(repeat split; discriminate).
  emits_step ltac:(repeat split; discriminate).
  emits_step ltac:(repeat split; discriminate).
  emits_step ltac:(repeat split; discriminate).
  emits_step ltac:(repeat split; discriminate).
  destruct (truthy a4).
  - destruct (replaceOf a4 "ipfs://" "") as [u|e].
    + emits_step ltac:(repeat split; discriminate).
      emits_done ltac:(repeat split; intros l [= <-]; reflexivity).
    + emits_step ltac:(repeat split; discriminate).
  - emits_step ltac:(repeat split; discriminate).
    emits_done ltac:(repeat split; intros l [= <-]; reflexivity).
Qed.

Lemma throws_emits {A} (m : M A) r cs con :
  throws m -> emits m r cs con -> exists e, r = Throw e.
Proof.
  intros Ht He. destruct (Ht initialPage) as [e Hp].
  exists e. now rewrite <- (emits_result m r cs con initialPage He).
Qed.

(** The resolution of the single token never throws.  It reads the
    location string of token [currentId - 1] and of no other token; it
    yields at most one item, and none when the read fails or when both
    the inline attempt and the fallback fail; it fetches only after a
    read that succeeded. *)
Lemma resolveToken_emits (currentId : Z) :
  exists l cs con,
    emits (App.resolveToken w currentId) (Ok l) cs con
    /\ tokenReads cs = [currentId - 1]
    /\ (List.length l <= 1)%nat
    /\ ((exists e, tokenURI w (currentId - 1) = Throw e) -> l = [] /\ fetches cs = [])
    /\ (forall uri, tokenURI w (currentId - 1) = Ok uri ->
          throws (App.inlineMetadata w (currentId - 1) uri) ->
          throws (App.ipfsMetadata w (currentId - 1) uri) -> l = []).
Proof.
  unfold App.resolveToken; cbv zeta.
  destruct (tokenURI w (currentId - 1)) as [uri|e].
  - destruct (inlineMetadata_emits (currentId - 1) uri)
      as (r1 & cs1 & con1 & H1 & -> & -> & Hone1).
    destruct r1 as [l1|e1].
    + exists l1. do 2 eexists. refine (conj _ (conj _ (conj _ (conj _ _)))).
      * eapply emits_tryCatch_Ok, emits_bind_Ok; [apply emits_await|].
        eapply emits_tryCatch_Ok, H1.
      * reflexivity.
      * rewrite (Hone1 l1 eq_refl). lia.
      * intros [e He]; discriminate.
      * intros uri' [= <-] Hin _.
        destruct (throws_emits _ _ _ _ Hin H1) as [e He]. discriminate.
    + destruct (ipfsMetadata_emits (currentId - 1) uri)
        as (r2 & cs2 & con2 & H2 & Htok & Hfetch & -> & Hone2).
      destruct r2 as [l2|e2].
      * exists l2. do 2 eexists. refine (conj _ (conj _ (conj _ (conj _ _)))).
        -- eapply emits_tryCatch_Ok, emits_bind_Ok; [apply emits_await|].
           eapply emits_tryCatch_Throw; [exact H1|].
           eapply emits_bind_Ok; [apply emits_consoleError|].
           eapply emits_tryCatch_Ok, H2.
        -- cbn. now rewrite Htok.
        -- rewrite (Hone2 l2 eq_refl). lia.
        -- intros [e He]; discriminate.
        -- intros uri' [= <-] _ Hip.
           destruct (throws_emits _ _ _ _ Hip H2) as [e He]. discriminate.
      * exists []. do 2 eexists. refine (conj _ (conj _ (conj _ (conj _ _)))).
        -- eapply emits_tryCatch_Ok, emits_bind_Ok; [apply emits_await|].
           eapply emits_tryCatch_Throw; [exact H1|].
           eapply emits_bind_Ok; [apply emits_consoleError|].
           eapply emits_tryCatch_Throw; [exact H2|].
           apply emits_log_and_give_up.
        -- cbn. rewrite app_nil_r. now rewrite Htok.
        -- cbn. lia.
        -- intros [e He]; discriminate.
        -- intros; reflexivity.
  - exists []. do 2 eexists. refine (conj _ (conj _ (conj _ (conj _ _)))).
    + eapply emits_tryCatch_Throw.
      * apply emits_bind_Throw, emits_await.
      * apply emits_log_and_give_up.
    + reflexivity.
    + cbn. lia.
    + intros _. split; reflexivity.
    + intros uri H; discriminate.
Qed.

End Resolution.

(* ================================================================== *)
(** ** The gallery load, case by case *)
(* ================================================================== *)

Section GalleryLoad.
Variable w : World.
Variable a : option string.
Variable p : Page.

Lemma fetchNFTs_no_account :
  present a = false ->
  exec (App.fetchNFTs w a) p
  = mkPage (AppState.mk (nfts (app p)) false (error (app p)) (account (app p))
                        (isConnecting (app p)))
           (minter p) (calls p) (console p).
Proof. intros H. unfold exec, App.fetchNFTs. rewrite H. reflexivity. Qed.

Lemma fetchNFTs_no_provider :
  present a = true -> ethereum w = None ->
  exec (App.fetchNFTs w a) p
  = mkPage (AppState.mk (nfts (app p)) false (Some "Please install MetaMask")
                        (account (app p)) (isConnecting (app p)))
           (minter p) (calls p) (console p ++ ["Error fetching NFTs:"]).
Proof. intros H He. unfold exec, App.fetchNFTs. rewrite H, He. reflexivity. Qed.

Lemma fetchNFTs_signer_fails eth e :
  present a = true -> ethereum w = Some eth -> getSigner eth = Throw e ->
  exec (App.fetchNFTs w a) p
  = mkPage (AppState.mk (nfts (app p)) false (Some (App.fetchErrorMessage e))
                        (account (app p)) (isConnecting (app p)))
           (minter p) (calls p ++ [GetSigner]) (console p ++ ["Error fetching NFTs:"]).
Proof.
  intros H He Hs. unfold exec, App.fetchNFTs. rewrite H, He; cbn.
  unfold tryFinally, tryCatch, bind, await. rewrite Hs. reflexivity.
Qed.

Section WithSigner.
Variables (eth : EthereumProvider) (s : Signer).
Hypothesis Ha : present a = true.
Hypothesis Heth : ethereum w = Some eth.
Hypothesis Hs : getSigner eth = Ok s.

Lemma fetchNFTs_counter_fails e :
  getItemId w = Throw e ->
  exec (App.fetchNFTs w a) p
  = mkPage (AppState.mk (nfts (app p)) false
                        (Some "Could not fetch your NFTs. Please try again later.")
                        (account (app p)) (isConnecting (app p)))
           (minter p) (calls p ++ [GetSigner; GetItemId])
           (console p ++ ["Error getting tokens:"]).
Proof.
  intros Hc. unfold exec, App.fetchNFTs. rewrite Ha, Heth; cbn.
  unfold tryFinally, tryCatch, bind, await. rewrite Hs, Hc; cbn.
  now rewrite <- app_assoc.
Qed.

Lemma fetchNFTs_zero :
  getItemId w = Ok 0 ->
  exec (App.fetchNFTs w a) p
  = mkPage (AppState.mk [] false (error (app p)) (account (app p)) (isConnecting (app p)))
           (minter p) (calls p ++ [GetSigner; GetItemId]) (console p).
Proof.
  intros Hc. unfold exec, App.fetchNFTs. rewrite Ha, Heth; cbn.
  unfold tryFinally, tryCatch, bind, await. rewrite Hs, Hc; cbn.
  now rewrite <- app_assoc.
Qed.

Lemma fetchNFTs_nonzero n l cs con :
  getItemId w = Ok n -> n <> 0 ->
  emits (App.resolveToken w n) (Ok l) cs con ->
  exec (App.fetchNFTs w a) p
  = mkPage (AppState.mk l false (error (app p)) (account (app p)) (isConnecting (app p)))
           (minter p) (calls p ++ [GetSigner; GetItemId] ++ cs) (console p ++ con).
Proof.
  intros Hc Hn Hr. unfold exec, App.fetchNFTs. rewrite Ha, Heth; cbn.
  unfold tryFinally, tryCatch, bind, await. rewrite Hs, Hc; cbn.
  rewrite toString_zero. destruct (Z.eqb_spec n 0) as [|_]; [contradiction|].
  rewrite Hr; cbn.
  now rewrite <- !app_assoc.
Qed.

End WithSigner.
End GalleryLoad.

Lemma tokenReads_In (id : Z) (cs : list Call) :
  In (TokenURI id) cs -> In id (tokenReads cs).
Proof.
  induction cs as [|c cs IH]; cbn; [tauto|].
  intros [->|H]; [now left|].
  destruct c; auto. right; auto.
Qed.

Lemma fetches_In (url : string) (cs : list Call) :
  In (Fetch url) cs -> In url (fetches cs).
Proof.
  induction cs as [|c cs IH]; cbn; [tauto|].
  intros [->|H]; [now left|].
  destruct c; auto. right; auto.
Qed.

Lemma tokenReads_app (cs cs' : list Call) :
  tokenReads (cs ++ cs') = (tokenReads cs ++ tokenReads cs')%list.
Proof.
  induction cs as [|c cs IH]; cbn; [reflexivity|].
  destruct c; cbn; now rewrite ?IH.
Qed.

Lemma fetches_app (cs cs' : list Call) :
  fetches (cs ++ cs') = (fetches cs ++ fetches cs')%list.
Proof.
  induction cs as [|c cs IH]; cbn; [reflexivity|].
  destruct c; cbn; now rewrite ?IH.
Qed.

(* ================================================================== *)
(** ** The stages of a mint *)
(* ================================================================== *)

(** The four awaited calls of a mint either all succeed or fail at one
    stage: [MintFailure] leaves no case out. *)
Lemma mint_stages_exhaustive (w : World) (f : File) (n d : string) :
  (exists imageUri metadataUri tx receipt,
      uploadToIPFS w f = Ok imageUri
      /\ uploadMetadataToIPFS w (NFTMetadata.mk n d imageUri) = Ok metadataUri
      /\ mintNFT w metadataUri = Ok tx
      /\ wait w tx = Ok receipt)
  \/ (exists e made, MintFailure w f n d e made).
Proof.
  destruct (uploadToIPFS w f) as [imageUri|e] eqn:H1.
  2:{ right. do 2 eexists. apply ImageUploadFails. exact H1. }
  destruct (uploadMetadataToIPFS w (NFTMetadata.mk n d imageUri)) as [metadataUri|e] eqn:H2.
  2:{ right. do 2 eexists. eapply MetadataUploadFails; eassumption. }
  destruct (mintNFT w metadataUri) as [tx|e] eqn:H3.
  2:{ right. do 2 eexists. eapply MintCallFails; eassumption. }
  destruct (wait w tx) as [receipt|e] eqn:H4.
  2:{ right. do 2 eexists. eapply ConfirmationFails; eassumption. }
  left. exists imageUri, metadataUri, tx, receipt. auto.
Qed.

(** Every failure is reported after at least the image upload was
    tried, and the image upload is always the first call. *)
Lemma MintFailure_starts_with_upload (w : World) (f : File) (n d : string) e made :
  MintFailure w f n d e made -> exists rest, made = UploadToIPFS f :: rest.
Proof. intros H; destruct H; eexists; reflexivity. Qed.

(* ================================================================== *)
(** ** Sessions without a provider *)
(* ================================================================== *)

Section NoProvider.
Variable w : World.
Hypothesis Hnone : ethereum w = None.

Lemma connect_without_provider (p : Page) :
  exec (App.connect w) p
  = mkPage (AppState.mk (nfts (app p)) (loading (app p))
              (Some "Please install MetaMask to use this application")
              (account (app p)) (isConnecting (app p)))
           (minter p) (calls p) (console p).
Proof.
  unfold exec, App.connect, App.thenRender, App.connectWallet, detach, exec.
  rewrite Hnone. unfold bind, readApp; cbn.
  destruct (account (app p)) as [x|]; cbn; [rewrite String.eqb_refl|]; reflexivity.
Qed.

(** The mint flow never writes the account. *)
Lemma handleMint_account (p : Page) :
  account (app (exec (App.handleMint w) p)) = account (app p).
Proof.
  destruct p as [a [fl nm ds ct sg ms pv] cs con].
  unfold exec, App.handleMint, NFTMinter.handleMint, bind, readApp, readMinter; cbn.
  destruct fl as [f|]; [|reflexivity].
  destruct (nm =? "")%string; [reflexivity|].
  destruct (ds =? "")%string; [reflexivity|]. cbn.
  destruct (present (AppState.account a)); [|reflexivity].
  destruct ct as [c|]; [|reflexivity].
  destruct sg as [s|]; [|reflexivity]. cbn.
  unfold tryCatch, bind, await; cbn.
  destruct (uploadToIPFS w f) as [u|e]; [|reflexivity]. cbn.
  destruct (uploadMetadataToIPFS w _) as [m|e]; [|reflexivity]. cbn.
  destruct (mintNFT w m) as [tx|e]; [|reflexivity]. cbn.
  destruct (wait w tx) as [r|e]; reflexivity.
Qed.

Lemma act_keeps_account_unset (x : Action) (p : Page) :
  account (app p) = None -> account (app (exec (act w x) p)) = None.
Proof.
  intros Hp. destruct x; cbn.
  - rewrite connect_without_provider. exact Hp.
  - change (account (app (exec (App.handleMint w) p)) = None).
    now rewrite handleMint_account.
  - destruct files; exact Hp.
  - exact Hp.
  - exact Hp.
  - rewrite Hnone. exact Hp.
Qed.

Lemma run_keeps_account_unset (xs : list Action) :
  forall p, account (app p) = None -> account (app (run w xs p)) = None.
Proof.
  induction xs as [|x xs IH]; intros p Hp; cbn.
  - exact Hp.
  - apply IH. now apply act_keeps_account_unset.
Qed.

Lemma mount_without_provider :
  account (app (exec (App.mount w) initialPage)) = None.
Proof.
  unfold exec, App.mount, App.thenRender, detach, exec, App.checkConnection,
    NFTMinter.init, bind, readApp; cbn.
  rewrite Hnone. reflexivity.
Qed.

(** Without a provider, no session ever has an account. *)
Lemma session_without_provider (xs : list Action) :
  account (app (session w xs)) = None.
Proof. apply run_keeps_account_unset, mount_without_provider. Qed.

End NoProvider.

(* ================================================================== *)
(** ** Strings: pieces and prefixes *)
(* ================================================================== *)

Lemma split_nonempty (sep : ascii) (s : string) : split sep s <> [].
Proof.
  destruct s as [|c s]; cbn; [discriminate|].
  destruct (Ascii.eqb c sep); [discriminate|].
  destruct (split sep s); discriminate.
Qed.

Lemma split_free (sep : ascii) (s : string) :
  free sep s = true -> split sep s = [s].
Proof.
  induction s as [|c s IH]; cbn; [reflexivity|].
  destruct (Ascii.eqb c sep); cbn; [discriminate|].
  intros H. now rewrite (IH H).
Qed.

Lemma split_app_sep (sep : ascii) (s t : string) :
  free sep s = true ->
  split sep (s ++ String sep t) = s :: split sep t.
Proof.
  induction s as [|c s IH]; cbn.
  - intros _. now rewrite Ascii.eqb_refl.
  - destruct (Ascii.eqb c sep); cbn; [discriminate|].
    intros H. now rewrite (IH H).
Qed.

Lemma prefix_app (pat s : string) : prefix pat (pat ++ s) = true.
Proof.
  induction pat as [|c pat IH]; cbn.
  - now destruct s.
  - destruct (ascii_dec c c) as [_|N]; [exact IH|now elim N].
Qed.

Lemma drop_app (pat s : string) : drop (String.length pat) (pat ++ s) = s.
Proof. induction pat as [|c pat IH]; cbn; [now destruct s|exact IH]. Qed.

Lemma drop_length (n : nat) (s : string) :
  (String.length (drop n s) <= String.length s)%nat.
Proof.
  revert s. induction n as [|n IH]; intros s; cbn; [lia|].
  destruct s as [|c s]; cbn; [lia|]. specialize (IH s). lia.
Qed.

(* ================================================================== *)
(** ** Every way a mint can end *)
(* ================================================================== *)

Lemma handleMint_outcome (w : World) (p : Page) :
  MintOutcome w p (exec (App.handleMint w) p).
Proof.
  destruct p as [a [fl nm ds ct sg ms pv] cs con].
  unfold exec, App.handleMint, NFTMinter.handleMint, bind, readApp, readMinter; cbn.
  destruct fl as [f|]; cbn.
  2:{ apply (MintRejectedFields w (mkPage a (MinterState.mk None nm ds ct sg ms pv) cs con)).
      now left. }
  destruct (String.eqb_spec nm "") as [->|Hn]; cbn.
  { apply (MintRejectedFields w (mkPage a (MinterState.mk (Some f) "" ds ct sg ms pv) cs con)).
    right; now left. }
  destruct (String.eqb_spec ds "") as [->|Hd]; cbn.
  { apply (MintRejectedFields w (mkPage a (MinterState.mk (Some f) nm "" ct sg ms pv) cs con)).
    right; now right. }
  set (p0 := mkPage a (MinterState.mk (Some f) nm ds ct sg ms pv) cs con).
  destruct (present (AppState.account a)) eqn:Ha; cbn.
  2:{ apply (MintRejectedWallet w p0); cbn; auto. }
  destruct ct as [c|]; cbn.
  2:{ apply (MintRejectedWallet w p0); cbn; auto. }
  destruct sg as [s|]; cbn.
  2:{ apply (MintRejectedWallet w p0); cbn; auto. }
  assert (Hready : mintReady p0) by (unfold mintReady; cbn; auto 10).
  unfold tryCatch, bind, await; cbn.
  destruct (uploadToIPFS w f) as [imageUri|e] eqn:H1; cbn.
  2:{ apply (MintFailed w p0 f e [UploadToIPFS f] Hready eq_refl).
      now apply ImageUploadFails. }
  destruct (uploadMetadataToIPFS w (NFTMetadata.mk nm ds imageUri))
    as [metadataUri|e] eqn:H2; cbn.
  2:{ rewrite <- !app_assoc.
      apply (MintFailed w p0 f e _ Hready eq_refl).
      eapply MetadataUploadFails; eassumption. }
  destruct (mintNFT w metadataUri) as [tx|e] eqn:H3; cbn.
  2:{ rewrite <- !app_assoc.
      apply (MintFailed w p0 f e _ Hready eq_refl).
      eapply MintCallFails; eassumption. }
  destruct (wait w tx) as [receipt|e] eqn:H4; cbn.
  2:{ rewrite <- !app_assoc.
      apply (MintFailed w p0 f e _ Hready eq_refl).
      eapply ConfirmationFails; eassumption. }
  rewrite <- !app_assoc.
  apply (MintSucceeded w p0 f imageUri metadataUri tx receipt Hready eq_refl H1 H2 H3 H4).
Qed.

Lemma MintFailure_mints (w : World) (f : File) (n d : string) e made :
  MintFailure w f n d e made ->
  mints made = []
  \/ exists imageUri uri,
       mints made = [uri]
       /\ uploadToIPFS w f = Ok imageUri
       /\ uploadMetadataToIPFS w (NFTMetadata.mk n d imageUri) = Ok uri.
Proof.
  intros H; destruct H; cbn; eauto 10.
Qed.

(** The page a successful mint leaves. *)
Lemma handleMint_success_page
  (w : World) (p : Page) (f : File) (imageUri metadataUri : string) (tx : Tx)
  (receipt : JsValue) :
  mintReady p ->
  file (minter p) = Some f ->
  uploadToIPFS w f = Ok imageUri ->
  uploadMetadataToIPFS w
    (NFTMetadata.mk (name (minter p)) (description (minter p)) imageUri) = Ok metadataUri ->
  mintNFT w metadataUri = Ok tx ->
  wait w tx = Ok receipt ->
  exec (App.handleMint w) p
  = mkPage
      (AppState.mk
         (nfts (app p)
          ++ [NFT.mk (JStr (name (minter p))) (JStr (description (minter p)))
                     (JStr imageUri)])%list
         (loading (app p)) (error (app p)) (account (app p)) (isConnecting (app p)))
      (MinterState.mk None "" "" (contract (minter p)) (signer (minter p))
         (MintingState.mk false None true) None)
      (calls p
       ++ [UploadToIPFS f;
           UploadMetadataToIPFS
             (NFTMetadata.mk (name (minter p)) (description (minter p)) imageUri);
           MintNFT metadataUri; TxWait tx])%list
      (console p).
Proof.
  intros (Hf & Hn & Hd & Ha & Hc & Hs) Hfile Himg Hmeta Hmint Hwait.
  destruct p as [a [fl nm ds ct sg ms pv] cs con]; cbn in *.
  subst fl.
  destruct ct as [c|]; [|discriminate].
  destruct sg as [s|]; [|discriminate].
  apply String.eqb_neq in Hn, Hd.
  unfold exec, App.handleMint, NFTMinter.handleMint, bind, readApp, readMinter; cbn.
  rewrite Hn, Hd, Ha; cbn.
  unfold tryCatch, bind, await; cbn.
  rewrite Himg, Hmeta, Hmint, Hwait; cbn.
  now rewrite <- !app_assoc.
Qed.

(* ================================================================== *)
(** ** What a load can do to the page *)
(* ================================================================== *)

Lemma spends_app (cs cs' : list Call) :
  filter spends (cs ++ cs') = (filter spends cs ++ filter spends cs')%list.
Proof. apply filter_app. Qed.

Lemma reads_spend_nothing (cs : list Call) :
  forallb reads cs = true -> filter spends cs = [].
Proof.
  induction cs as [|c cs IH]; cbn; [reflexivity|].
  intros H. apply andb_prop in H. destruct H as [Hc Hcs].
  destruct c; cbn in *; try discriminate; now apply IH.
Qed.

Lemma reads_request_nothing (cs : list Call) :
  forallb reads cs = true -> ~ In RequestAccounts cs.
Proof.
  intros H Hin. rewrite forallb_forall in H.
  specialize (H _ Hin). discriminate.
Qed.

Section LoadOutcome.
Variable w : World.

Lemma ipfsMetadata_reads (tokenId : Z) (uri : string) :
  exists r cs con,
    emits (App.ipfsMetadata w tokenId uri) r cs con /\ forallb reads cs = true.
Proof.
  unfold App.ipfsMetadata.
  emits_step ltac:(reflexivity).
  destruct (ok a).
  2:{ emits_step ltac:(reflexivity). }
  emits_step ltac:(reflexivity).
  emits_step ltac:(reflexivity).
  emits_step ltac:(reflexivity).
  emits_step ltac:(reflexivity).
  emits_step ltac:(reflexivity).
  destruct (truthy a4).
  - destruct (replaceOf a4 "ipfs://" "") as [u|e].
    + emits_step ltac:(reflexivity).
      emits_done ltac:(reflexivity).
    + emits_step ltac:(reflexivity).
  - emits_step ltac:(reflexivity).
    emits_done ltac:(reflexivity).
Qed.

Lemma resolveToken_reads (currentId : Z) :
  exists l cs con,
    emits (App.resolveToken w currentId) (Ok l) cs con /\ forallb reads cs = true.
Proof.
  unfold App.resolveToken; cbv zeta.
  destruct (tokenURI w (currentId - 1)) as [uri|e].
  - destruct (inlineMetadata_emits w (currentId - 1) uri)
      as (r1 & cs1 & con1 & H1 & -> & -> & _).
    destruct r1 as [l1|e1].
    + exists l1. do 2 eexists. split.
      * eapply emits_tryCatch_Ok, emits_bind_Ok; [apply emits_await|].
        eapply emits_tryCatch_Ok, H1.
      * reflexivity.
    + destruct (ipfsMetadata_reads (currentId - 1) uri) as (r2 & cs2 & con2 & H2 & Hq).
      destruct r2 as [l2|e2].
      * exists l2. do 2 eexists. split.
        -- eapply emits_tryCatch_Ok, emits_bind_Ok; [apply emits_await|].
           eapply emits_tryCatch_Throw; [exact H1|].
           eapply emits_bind_Ok; [apply emits_consoleError|].
           eapply emits_tryCatch_Ok, H2.
        -- cbn. exact Hq.
      * exists []. do 2 eexists. split.
        -- eapply emits_tryCatch_Ok, emits_bind_Ok; [apply emits_await|].
           eapply emits_tryCatch_Throw; [exact H1|].
           eapply emits_bind_Ok; [apply emits_consoleError|].
           eapply emits_tryCatch_Throw; [exact H2|].
           apply emits_log_and_give_up.
        -- cbn. rewrite app_nil_r. exact Hq.
  - exists []. do 2 eexists. split.
    + eapply emits_tryCatch_Throw.
      * apply emits_bind_Throw, emits_await.
      * apply emits_log_and_give_up.
    + reflexivity.
Qed.

(** Every load ends with the spinner off; it never writes the account,
    the connecting flag or the form; it makes only the signer request
    and reads; and it either leaves the banner as it was, or sets it and
    leaves the gallery as it was. *)
Lemma fetchNFTs_outcome (a : option string) (p : Page) :
  let p' := exec (App.fetchNFTs w a) p in
  loading (app p') = false
  /\ account (app p') = account (app p)
  /\ isConnecting (app p') = isConnecting (app p)
  /\ minter p' = minter p
  /\ (exists made, calls p' = (calls p ++ made)%list /\ forallb reads made = true)
  /\ (error (app p') = error (app p)
      \/ exists msg, error (app p') = Some msg /\ nfts (app p') = nfts (app p)).
Proof.
  intros p'. subst p'.
  destruct (present a) eqn:Ha.
  2:{ rewrite (fetchNFTs_no_account w a p Ha); cbn.
      repeat split; auto. exists []. now rewrite app_nil_r. }
  destruct (ethereum w) as [eth|] eqn:Heth.
  2:{ rewrite (fetchNFTs_no_provider w a p Ha Heth); cbn.
      repeat split; eauto. exists []. now rewrite app_nil_r. }
  destruct (getSigner eth) as [s|e] eqn:Hs.
  2:{ rewrite (fetchNFTs_signer_fails w a p eth e Ha Heth Hs); cbn.
      repeat split; eauto. }
  destruct (getItemId w) as [n|e] eqn:Hc.
  2:{ rewrite (fetchNFTs_counter_fails w a p eth s Ha Heth Hs e Hc); cbn.
      repeat split; eauto. }
  destruct (Z.eq_dec n 0) as [->|Hn].
  { rewrite (fetchNFTs_zero w a p eth s Ha Heth Hs Hc); cbn.
    repeat split; eauto. }
  destruct (resolveToken_reads n) as (l & cs & con & Hr & Hq).
  rewrite (fetchNFTs_nonzero w a p eth s Ha Heth Hs n l cs con Hc Hn Hr); cbn.
  repeat split; eauto.
Qed.

End LoadOutcome.

(* ================================================================== *)
(** ** Relations kept by the handlers, the renders and the sessions *)
(* ================================================================== *)

Section Rendering.
Variable w : World.
Variable R : Page -> Page -> Prop.
Hypothesis R_refl : forall p, R p p.
Hypothesis R_trans : forall p q r, R p q -> R q r -> R p r.
Hypothesis R_init : forall a p, R p (exec (NFTMinter.init w a) p).
Hypothesis R_load : forall a p, R p (exec (App.fetchNFTs w a) p).
Hypothesis R_connectWallet : forall p, R p (exec (App.connectWallet w) p).
Hypothesis R_checkConnection : forall p, R p (exec (App.checkConnection w) p).
Hypothesis R_listener :
  forall accounts p, R p (exec (NFTMinter.handleAccountsChanged w accounts) p).
Hypothesis R_setAccount : forall x p, R p (exec (setAccount x) p).
Hypothesis R_file : forall files p, R p (exec (NFTMinter.handleFileChange w files) p).
Hypothesis R_name : forall s p, R p (exec (setName s) p).
Hypothesis R_description : forall s p, R p (exec (setDescription s) p).

Lemma accountEffects_rel (p : Page) : R p (exec (App.accountEffects w) p).
Proof.
  unfold exec, App.accountEffects, bind, readApp, detach; cbn.
  eapply R_trans; [apply (R_init (account (app p)) p)|].
  apply R_load.
Qed.

Lemma thenRender_rel (h : M unit) (p : Page) :
  R p (exec h p) -> R p (exec (App.thenRender w h) p).
Proof.
  intros Hh. unfold exec in *. unfold App.thenRender, bind, readApp; cbn.
  destruct (h p) as [[u|e] p1]; cbn in *; [|exact Hh].
  destruct (sameAccount (account (app p)) (account (app p1))); cbn; [exact Hh|].
  eapply R_trans; [exact Hh|]. apply accountEffects_rel.
Qed.

Lemma detach_rel {A} (m : M A) (p : Page) : R p (exec m p) -> R p (exec (detach m) p).
Proof. intros H; exact H. Qed.

Lemma seq_rel (m k : M unit) (p : Page) :
  R p (exec m p) -> (forall q, R q (exec k q)) -> R p (exec (m ;; k) p).
Proof.
  intros Hm Hk. unfold exec in *. unfold bind.
  destruct (m p) as [[u|e] p1]; cbn in *; [|exact Hm].
  eapply R_trans; [exact Hm|]. apply Hk.
Qed.

Lemma connect_rel (p : Page) : R p (exec (App.connect w) p).
Proof. apply thenRender_rel, detach_rel, R_connectWallet. Qed.

Lemma accountsChanged_rel (accounts : list string) (p : Page) :
  R p (exec (App.accountsChanged w accounts) p).
Proof.
  apply thenRender_rel, seq_rel.
  - apply detach_rel, R_listener.
  - intros q. apply R_setAccount.
Qed.

Lemma mount_rel (p : Page) : R p (exec (App.mount w) p).
Proof.
  apply thenRender_rel.
  unfold exec, bind, readApp; cbn.
  eapply R_trans; [apply (R_init (account (app p)) p)|].
  eapply R_trans; [apply R_load|].
  apply R_checkConnection.
Qed.

Lemma act_rel (x : Action) (p : Page) :
  (x = Mint -> R p (exec (App.handleMint w) p)) ->
  R p (exec (act w x) p).
Proof.
  intros Hmint. destruct x; cbn.
  - apply connect_rel.
  - apply detach_rel, Hmint. reflexivity.
  - apply R_file.
  - apply R_name.
  - apply R_description.
  - destruct (ethereum w); [apply accountsChanged_rel|apply R_refl].
Qed.

Lemma run_rel (xs : list Action) :
  (In Mint xs -> forall p, R p (exec (App.handleMint w) p)) ->
  forall p, R p (run w xs p).
Proof.
  induction xs as [|x xs IH]; intros Hmint p; cbn.
  - apply R_refl.
  - apply (R_trans p (exec (act w x) p)).
    + apply act_rel. intros E. apply Hmint. left. now symmetry.
    + apply IH. intros Hin. apply Hmint. now right.
Qed.

Lemma session_rel (xs : list Action) :
  (In Mint xs -> forall p, R p (exec (App.handleMint w) p)) ->
  R initialPage (session w xs).
Proof.
  intros Hmint. unfold session.
  eapply R_trans; [apply mount_rel|]. now apply run_rel.
Qed.

End Rendering.

(* ================================================================== *)
(** ** Nothing but the mint flow stores or sends *)
(* ================================================================== *)

Lemma quietly_refl (p : Page) : quietly p p.
Proof. exists []. now rewrite app_nil_r. Qed.

Lemma quietly_trans (p q r : Page) : quietly p q -> quietly q r -> quietly p r.
Proof.
  intros (m1 & E1 & Q1) (m2 & E2 & Q2).
  exists (m1 ++ m2)%list. split.
  - now rewrite E2, E1, app_assoc.
  - now rewrite spends_app, Q1, Q2.
Qed.

Lemma quietly_same_calls (p p' : Page) : calls p' = calls p -> quietly p p'.
Proof. intros E. exists []. now rewrite app_nil_r. Qed.

Lemma quietly_one_call (p p' : Page) (c : Call) :
  spends c = false -> calls p' = (calls p ++ [c])%list -> quietly p p'.
Proof. intros Hc E. exists [c]. split; [exact E|]. cbn. now rewrite Hc. Qed.

Lemma quietly_spends (p p' : Page) :
  quietly p p' -> filter spends (calls p') = filter spends (calls p).
Proof.
  intros (made & E & Q). now rewrite E, spends_app, Q, app_nil_r.
Qed.

Section Quiet.
Variable w : World.

Lemma init_quietly (a : option string) (p : Page) :
  quietly p (exec (NFTMinter.init w a) p).
Proof.
  unfold exec, NFTMinter.init.
  destruct (ethereum w) as [eth|]; [|apply quietly_refl].
  destruct (present a); [|apply quietly_refl].
  unfold tryCatch, bind, await; cbn.
  destruct (getSigner eth) as [s|e]; cbn;
    now apply (quietly_one_call _ _ GetSigner).
Qed.

Lemma fetchNFTs_quietly (a : option string) (p : Page) :
  quietly p (exec (App.fetchNFTs w a) p).
Proof.
  destruct (fetchNFTs_outcome w a p) as (_ & _ & _ & _ & (made & E & Hr) & _).
  exists made. split; [exact E|]. now apply reads_spend_nothing.
Qed.

Lemma connectWallet_quietly (p : Page) : quietly p (exec (App.connectWallet w) p).
Proof.
  unfold exec, App.connectWallet.
  destruct (ethereum w) as [eth|]; [|now apply quietly_same_calls].
  unfold tryFinally, tryCatch, bind, await; cbn.
  destruct (eth_requestAccounts eth) as [accounts|e]; cbn;
    now apply (quietly_one_call _ _ RequestAccounts).
Qed.

Lemma checkConnection_quietly (p : Page) : quietly p (exec (App.checkConnection w) p).
Proof.
  unfold exec, App.checkConnection.
  destruct (ethereum w) as [eth|]; [|apply quietly_refl].
  unfold tryCatch, bind, await; cbn.
  destruct (getSigner eth) as [s|e]; cbn.
  2:{ now apply (quietly_one_call _ _ GetSigner). }
  destruct (getAddress eth s) as [address|e]; cbn;
    (exists [GetSigner; GetAddress]; split; [now rewrite <- app_assoc|reflexivity]).
Qed.

Lemma listener_quietly (accounts : list string) (p : Page) :
  quietly p (exec (NFTMinter.handleAccountsChanged w accounts) p).
Proof.
  unfold exec, NFTMinter.handleAccountsChanged.
  destruct (Z.of_nat (List.length accounts) =? 0); [now apply quietly_same_calls|].
  destruct (ethereum w) as [eth|]; [|apply quietly_refl].
  unfold bind, await; cbn.
  destruct (getSigner eth) as [s|e]; cbn;
    now apply (quietly_one_call _ _ GetSigner).
Qed.

Lemma handleFileChange_quietly (files : list File) (p : Page) :
  quietly p (exec (NFTMinter.handleFileChange w files) p).
Proof. destruct files; [apply quietly_refl|now apply quietly_same_calls]. Qed.

(** A session in which [Mint NFT] is never pressed. *)
Lemma session_quietly (xs : list Action) :
  ~ In Mint xs -> quietly initialPage (session w xs).
Proof.
  intros Hno.
  apply (session_rel w quietly quietly_refl quietly_trans
           init_quietly fetchNFTs_quietly connectWallet_quietly checkConnection_quietly
           listener_quietly
           (fun x p => quietly_same_calls p _ eq_refl)
           handleFileChange_quietly
           (fun s p => quietly_same_calls p _ eq_refl)
           (fun s p => quietly_same_calls p _ eq_refl)).
  intros Hin. contradiction.
Qed.

Lemma act_quietly (x : Action) (p : Page) :
  x <> Mint -> quietly p (exec (act w x) p).
Proof.
  intros Hx.
  apply (act_rel w quietly quietly_refl quietly_trans
           init_quietly fetchNFTs_quietly connectWallet_quietly
           listener_quietly
           (fun x p => quietly_same_calls p _ eq_refl)
           handleFileChange_quietly
           (fun s p => quietly_same_calls p _ eq_refl)
           (fun s p => quietly_same_calls p _ eq_refl)).
  intros E. contradiction.
Qed.

End Quiet.

(* ================================================================== *)
(** ** The signer and the contract stay together *)
(* ================================================================== *)

Lemma keepsBound_refl (p : Page) : keepsBound p p.
Proof. intros H; exact H. Qed.

Lemma keepsBound_trans (p q r : Page) : keepsBound p q -> keepsBound q r -> keepsBound p r.
Proof. unfold keepsBound; auto. Qed.

Lemma keepsBound_same_handles (p p' : Page) :
  signer (minter p') = signer (minter p) ->
  contract (minter p') = contract (minter p) ->
  keepsBound p p'.
Proof. unfold keepsBound, bound. now intros -> ->. Qed.

Section Bound.
Variable w : World.

Lemma init_keepsBound (a : option string) (p : Page) :
  keepsBound p (exec (NFTMinter.init w a) p).
Proof.
  unfold exec, NFTMinter.init.
  destruct (ethereum w) as [eth|]; [|apply keepsBound_refl].
  destruct (present a); [|apply keepsBound_refl].
  unfold tryCatch, bind, await; cbn.
  destruct (getSigner eth) as [s|e]; cbn.
  - intros _. reflexivity.
  - now apply keepsBound_same_handles.
Qed.

Lemma fetchNFTs_keepsBound (a : option string) (p : Page) :
  keepsBound p (exec (App.fetchNFTs w a) p).
Proof.
  destruct (fetchNFTs_outcome w a p) as (_ & _ & _ & E & _).
  unfold keepsBound. now rewrite E.
Qed.

Lemma connectWallet_minter (p : Page) :
  minter (exec (App.connectWallet w) p) = minter p.
Proof.
  unfold exec, App.connectWallet.
  destruct (ethereum w) as [eth|]; [|reflexivity].
  unfold tryFinally, tryCatch, bind, await; cbn.
  destruct (eth_requestAccounts eth); reflexivity.
Qed.

Lemma checkConnection_minter (p : Page) :
  minter (exec (App.checkConnection w) p) = minter p.
Proof.
  unfold exec, App.checkConnection.
  destruct (ethereum w) as [eth|]; [|reflexivity].
  unfold tryCatch, bind, await; cbn.
  destruct (getSigner eth) as [s|e]; cbn; [|reflexivity].
  destruct (getAddress eth s); reflexivity.
Qed.

Lemma listener_keepsBound (accounts : list string) (p : Page) :
  keepsBound p (exec (NFTMinter.handleAccountsChanged w accounts) p).
Proof.
  unfold exec, NFTMinter.handleAccountsChanged.
  destruct (Z.of_nat (List.length accounts) =? 0); [intros _; exact I|].
  destruct (ethereum w) as [eth|]; [|apply keepsBound_refl].
  unfold bind, await; cbn.
  destruct (getSigner eth) as [s|e]; cbn.
  - intros _. reflexivity.
  - now apply keepsBound_same_handles.
Qed.

Lemma handleFileChange_keepsBound (files : list File) (p : Page) :
  keepsBound p (exec (NFTMinter.handleFileChange w files) p).
Proof. destruct files; [apply keepsBound_refl|now apply keepsBound_same_handles]. Qed.

Lemma handleMint_keepsBound (p : Page) :
  keepsBound p (exec (App.handleMint w) p).
Proof.
  pose proof (handleMint_outcome w p) as H.
  destruct H; now apply keepsBound_same_handles.
Qed.

Lemma session_bound (xs : list Action) : bound (minter (session w xs)).
Proof.
  apply (session_rel w keepsBound keepsBound_refl keepsBound_trans
           init_keepsBound fetchNFTs_keepsBound
           (fun p => keepsBound_same_handles p _
                       (f_equal signer (connectWallet_minter p))
                       (f_equal contract (connectWallet_minter p)))
           (fun p => keepsBound_same_handles p _
                       (f_equal signer (checkConnection_minter p))
                       (f_equal contract (checkConnection_minter p)))
           listener_keepsBound
           (fun x p => keepsBound_same_handles p _ eq_refl eq_refl)
           handleFileChange_keepsBound
           (fun s p => keepsBound_same_handles p _ eq_refl eq_refl)
           (fun s p => keepsBound_same_handles p _ eq_refl eq_refl) xs).
  - intros _ p. apply handleMint_keepsBound.
  - exact I.
Qed.

End Bound.

(* ================================================================== *)
(** ** The two tiers of the resolution *)
(* ================================================================== *)

Lemma free_app (sep : ascii) (s t : string) :
  free sep (s ++ t) = free sep s && free sep t.
Proof.
  induction s as [|c s IH]; cbn; [reflexivity|].
  now rewrite IH, andb_assoc.
Qed.

Lemma replace_prefix (pat rep s : string) : replace pat rep (pat ++ s) = rep ++ s.
Proof.
  destruct pat as [|c pat].
  - cbn. destruct s; reflexivity.
  - cbn [append replace].
    change (String c (pat ++ s)) with (String c pat ++ s).
    rewrite prefix_app.
    change (String.length (String c pat)) with (S (String.length pat)).
    cbn [drop append]. now rewrite drop_app.
Qed.

Lemma replace_absent (pat rep s : string) :
  index 0 pat s = None -> replace pat rep s = s.
Proof.
  induction s as [|c s IH].
  - destruct pat; cbn; [discriminate|reflexivity].
  - cbn [index].
    destruct (prefix pat (String c s)) eqn:Hp; [discriminate|].
    destruct (index 0 pat s) eqn:Hi; [discriminate|].
    intros _. cbn [replace]. rewrite Hp. now rewrite IH.
Qed.

Lemma getProp_object (fields : list (string * JsValue)) (k : string) :
  getProp (JObj fields) k
  = Ok (match assoc k fields with Some x => x | None => JUndefined end).
Proof. reflexivity. Qed.

Lemma emits_eq {A} (m : M A) r cs con cs' con' :
  emits m r cs con -> cs = cs' -> con = con' -> emits m r cs' con'.
Proof. now intros H <- <-. Qed.

Section Tiers.
Variable w : World.

Lemma inlineMetadata_throws_emits (tokenId : Z) (uri : string) :
  throws (App.inlineMetadata w tokenId uri) ->
  exists e, emits (App.inlineMetadata w tokenId uri) (Throw e) [] [].
Proof.
  intros Ht.
  destruct (inlineMetadata_emits w tokenId uri) as (r & cs & con & H & -> & -> & _).
  destruct (throws_emits _ _ _ _ Ht H) as [e ->]. now exists e.
Qed.

(** The fallback starts with the fetch of the gateway address and may go
    on to read the body; it does nothing else. *)
Lemma ipfsMetadata_shape (tokenId : Z) (uri : string) :
  exists r cs con,
    emits (App.ipfsMetadata w tokenId uri) r cs con
    /\ (con = []
        /\ (cs = [Fetch (getIpfsUrl w (replace "ipfs://" "" uri))]
            \/ cs = [Fetch (getIpfsUrl w (replace "ipfs://" "" uri)); ResponseJson])).
Proof.
  unfold App.ipfsMetadata.
  emits_step ltac:(auto).
  destruct (ok a).
  2:{ emits_step ltac:(auto). }
  emits_step ltac:(auto).
  emits_step ltac:(auto).
  emits_step ltac:(auto).
  emits_step ltac:(auto).
  emits_step ltac:(auto).
  destruct (truthy a4).
  - destruct (replaceOf a4 "ipfs://" "") as [u|e].
    + emits_step ltac:(auto).
      emits_done ltac:(auto).
    + emits_step ltac:(auto).
  - emits_step ltac:(auto).
    emits_done ltac:(auto).
Qed.

Lemma resolveToken_inline (currentId : Z) (uri : string) (l : list NFT.t) :
  tokenURI w (currentId - 1) = Ok uri ->
  emits (App.inlineMetadata w (currentId - 1) uri) (Ok l) [] [] ->
  emits (App.resolveToken w currentId) (Ok l) [TokenURI (currentId - 1)] [].
Proof.
  intros Hu H1. unfold App.resolveToken; cbv zeta. rewrite Hu.
  eapply emits_eq.
  - eapply emits_tryCatch_Ok, emits_bind_Ok; [apply emits_await|].
    eapply emits_tryCatch_Ok, H1.
  - reflexivity.
  - reflexivity.
Qed.

Lemma resolveToken_fallback
  (currentId : Z) (uri : string) (e1 : Exn) (r2 : Result (list NFT.t))
  (cs2 : list Call) :
  tokenURI w (currentId - 1) = Ok uri ->
  emits (App.inlineMetadata w (currentId - 1) uri) (Throw e1) [] [] ->
  emits (App.ipfsMetadata w (currentId - 1) uri) r2 cs2 [] ->
  emits (App.resolveToken w currentId)
        (Ok (match r2 with Ok l => l | Throw _ => [] end))
        (TokenURI (currentId - 1) :: cs2)
        ("Error processing metadata:"
           :: match r2 with Ok _ => [] | Throw _ => ["Error fetching from IPFS:"] end).
Proof.
  intros Hu H1 H2. unfold App.resolveToken; cbv zeta. rewrite Hu.
  destruct r2 as [l2|e2].
  - eapply emits_eq.
    + eapply emits_tryCatch_Ok, emits_bind_Ok; [apply emits_await|].
      eapply emits_tryCatch_Throw; [exact H1|].
      eapply emits_bind_Ok; [apply emits_consoleError|].
      eapply emits_tryCatch_Ok, H2.
    + reflexivity.
    + reflexivity.
  - eapply emits_eq.
    + eapply emits_tryCatch_Ok, emits_bind_Ok; [apply emits_await|].
      eapply emits_tryCatch_Throw; [exact H1|].
      eapply emits_bind_Ok; [apply emits_consoleError|].
      eapply emits_tryCatch_Throw; [exact H2|].
      apply emits_log_and_give_up.
    + cbn. now rewrite app_nil_r.
    + reflexivity.
Qed.

End Tiers.

(* ================================================================== *)
(** ** The mount, step by step *)
(* ================================================================== *)

Section Equations.
Variable w : World.

Lemma exec_accountEffects (p : Page) :
  exec (App.accountEffects w) p
  = exec (App.fetchNFTs w (account (app p))) (exec (NFTMinter.init w (account (app p))) p).
Proof. reflexivity. Qed.

Lemma exec_mount (p : Page) :
  exec (App.mount w) p
  = let p1 := exec (App.checkConnection w)
                (exec (App.fetchNFTs w (account (app p)))
                   (exec (NFTMinter.init w (account (app p))) p)) in
    if sameAccount (account (app p)) (account (app p1)) then p1
    else exec (App.accountEffects w) p1.
Proof.
  unfold exec at 1. unfold App.mount, App.thenRender, bind, readApp, detach; cbn.
  match goal with |- context [sameAccount ?x ?y] => destruct (sameAccount x y) end;
    reflexivity.
Qed.

Lemma init_unset (p : Page) (a : option string) :
  present a = false -> exec (NFTMinter.init w a) p = p.
Proof.
  intros H. unfold exec, NFTMinter.init. rewrite H.
  destruct (ethereum w); reflexivity.
Qed.

Lemma init_binds (p : Page) (a : option string) (eth : EthereumProvider) (s : Signer) :
  present a = true -> ethereum w = Some eth -> getSigner eth = Ok s ->
  exec (NFTMinter.init w a) p
  = mkPage (app p)
      (MinterState.mk (file (minter p)) (name (minter p)) (description (minter p))
         (Some (Build_Contract NFT_MINTER_CONTRACT_ADDRESS NFT_MINTER_ABI s)) (Some s)
         (mintingState (minter p)) (previewUrl (minter p)))
      (calls p ++ [GetSigner]) (console p).
Proof.
  intros Ha Hw Hs. unfold exec, NFTMinter.init. rewrite Hw, Ha.
  unfold tryCatch, bind, await; cbn. rewrite Hs. reflexivity.
Qed.

Lemma checkConnection_adopts (p : Page) (eth : EthereumProvider) (s : Signer)
      (address : string) :
  ethereum w = Some eth -> getSigner eth = Ok s -> getAddress eth s = Ok address ->
  exec (App.checkConnection w) p
  = mkPage (AppState.mk (nfts (app p)) (loading (app p)) None (Some address)
              (isConnecting (app p)))
      (minter p) (calls p ++ [GetSigner; GetAddress]) (console p).
Proof.
  intros Hw Hs Hadd. unfold exec, App.checkConnection. rewrite Hw.
  unfold tryCatch, bind, await; cbn. rewrite Hs; cbn. rewrite Hadd; cbn.
  now rewrite <- app_assoc.
Qed.

Lemma mount_authorized (eth : EthereumProvider) (s : Signer) (address : string) :
  ethereum w = Some eth ->
  getSigner eth = Ok s ->
  getAddress eth s = Ok address ->
  address <> "" ->
  session w []
  = exec (App.fetchNFTs w (Some address))
      (mkPage (AppState.mk [] false None (Some address) false)
         (MinterState.mk None "" ""
            (Some (Build_Contract NFT_MINTER_CONTRACT_ADDRESS NFT_MINTER_ABI s))
            (Some s) (MintingState.mk false None false) None)
         [GetSigner; GetAddress; GetSigner] []).
Proof.
  intros Hw Hs Hadd Ha.
  assert (Hpa : present (Some address) = true).
  { cbn. apply negb_true_iff, String.eqb_neq. exact Ha. }
  unfold session, run. rewrite exec_mount.
  cbn [app initialPage account AppState.init].
  rewrite (init_unset initialPage None eq_refl).
  rewrite (fetchNFTs_no_account w None initialPage eq_refl).
  rewrite (checkConnection_adopts _ eth s address Hw Hs Hadd).
  cbv zeta. cbn [app account sameAccount].
  rewrite exec_accountEffects. cbn [app account].
  rewrite (init_binds _ (Some address) eth s Hpa Hw Hs).
  reflexivity.
Qed.

End Equations.

(* ================================================================== *)
(** ** The gallery a load sets, tier by tier *)
(* ================================================================== *)

Section GalleryOfLoad.
Variable w : World.
Variable a : option string.
Variable p : Page.
Variables (eth : EthereumProvider) (s : Signer) (n : Z).
Hypothesis Ha : present a = true.
Hypothesis Hw : ethereum w = Some eth.
Hypothesis Hs : getSigner eth = Ok s.
Hypothesis Hc : getItemId w = Ok n.
Hypothesis Hn : n <> 0.

Lemma gallery_inline_object (uri decoded : string) (fields : list (string * JsValue)) :
  tokenURI w (n - 1) = Ok uri ->
  atob w (match nth_error (split "," uri) 1 with Some d => d | None => "undefined" end)
  = Ok decoded ->
  JSON_parse w decoded = Ok (JObj fields) ->
  nfts (app (exec (App.fetchNFTs w a) p))
  = [NFT.mk
       (jsOr (match assoc "name" fields with Some x => x | None => JUndefined end)
             (JStr ("NFT #" ++ toString (n - 1))))
       (jsOr (match assoc "description" fields with Some x => x | None => JUndefined end)
             App.defaultDescription)
       (match assoc "image" fields with Some x => x | None => JUndefined end)].
Proof.
  intros Hu Hatob Hparse.
  assert (Hin : emits (App.inlineMetadata w (n - 1) uri)
                  (Ok [NFT.mk
       (jsOr (match assoc "name" fields with Some x => x | None => JUndefined end)
             (JStr ("NFT #" ++ toString (n - 1))))
       (jsOr (match assoc "description" fields with Some x => x | None => JUndefined end)
             App.defaultDescription)
       (match assoc "image" fields with Some x => x | None => JUndefined end)]) [] []).
  { intros [qa qm qc qcon]. unfold App.inlineMetadata, bind, lift, ret.
    rewrite Hatob, Hparse, !getProp_object. cbn. now rewrite !app_nil_r. }
  now rewrite (fetchNFTs_nonzero w a p eth s Ha Hw Hs n _ _ _ Hc Hn
                 (resolveToken_inline w n uri _ Hu Hin)).
Qed.

Lemma gallery_fallback_object
      (uri : string) (response : Response) (fields : list (string * JsValue)) :
  tokenURI w (n - 1) = Ok uri ->
  throws (App.inlineMetadata w (n - 1) uri) ->
  fetch w (getIpfsUrl w (replace "ipfs://" "" uri)) = Ok response ->
  ok response = true ->
  json response = Ok (JObj fields) ->
  let field k := match assoc k fields with Some x => x | None => JUndefined end in
  let item img :=
    NFT.mk (jsOr (field "name") (JStr ("NFT #" ++ toString (n - 1))))
           (jsOr (field "description") App.defaultDescription)
           (JStr img) in
  nfts (app (exec (App.fetchNFTs w a) p))
  = (if truthy (field "image") then
       match field "image" with
       | JStr img => [item (getIpfsUrl w (replace "ipfs://" "" img))]
       | _ => []
       end
     else [item App.defaultImage]).
Proof.
  intros Hu Hin Hfetch Hok Hjson field item.
  destruct (inlineMetadata_throws_emits w (n - 1) uri Hin) as [e1 H1].
  assert (H2 : exists r2,
             emits (App.ipfsMetadata w (n - 1) uri) r2
               [Fetch (getIpfsUrl w (replace "ipfs://" "" uri)); ResponseJson] []
             /\ match r2 with Ok l => l | Throw _ => [] end
                = (if truthy (field "image") then
                     match field "image" with
                     | JStr img => [item (getIpfsUrl w (replace "ipfs://" "" img))]
                     | _ => []
                     end
                   else [item App.defaultImage])).
  { subst item. unfold field.
    destruct (match assoc "image" fields with Some x => x | None => JUndefined end)
      as [| |b|z|img|items|obj] eqn:Ei;
      try destruct b; try destruct (Z.eqb_spec z 0) as [Hz|Hz];
      try destruct (String.eqb_spec img "") as [Himg|Himg];
      eexists; (split;
        [ intros [qa qm qc qcon];
          unfold App.ipfsMetadata, bind, await, throw, lift, ret;
          rewrite Hfetch; cbn; rewrite Hok; cbn; rewrite Hjson; cbn;
          rewrite Ei; cbn;
          rewrite ?Hz, ?Himg; cbn;
          try (apply Z.eqb_neq in Hz; rewrite Hz; cbn);
          try (apply String.eqb_neq in Himg; rewrite Himg; cbn);
          rewrite <- ?app_assoc, ?app_nil_r; cbn; reflexivity
        | cbn; rewrite ?Hz, ?Himg; cbn;
          try (apply Z.eqb_neq in Hz; rewrite Hz; cbn);
          try (apply String.eqb_neq in Himg; rewrite Himg; cbn);
          reflexivity ]). }
  destruct H2 as (r2 & H2 & Hr2).
  rewrite (fetchNFTs_nonzero w a p eth s Ha Hw Hs n _ _ _ Hc Hn
             (resolveToken_fallback w n uri e1 _ _ Hu H1 H2)); cbn.
  exact Hr2.
Qed.

Lemma gallery_resolution_fails :
  ResolutionFails w (n - 1) -> nfts (app (exec (App.fetchNFTs w a) p)) = [].
Proof.
  intros Hfail.
  destruct (resolveToken_emits w n) as (l & cs & con & Hr & _ & _ & Hread & Hboth).
  rewrite (fetchNFTs_nonzero w a p eth s Ha Hw Hs n l cs con Hc Hn Hr); cbn.
  destruct Hfail as [Hthrow | (uri & Huri & Hin & Hip)].
  - now apply Hread.
  - now apply (Hboth uri).
Qed.

End GalleryOfLoad.

(* ================================================================== *)
(** ** Sessions in which the answers change *)
(* ================================================================== *)

Lemma act_keepsBound (w : World) (x : Action) (p : Page) :
  keepsBound p (exec (act w x) p).
Proof.
  apply (act_rel w keepsBound keepsBound_refl keepsBound_trans
           (init_keepsBound w) (fetchNFTs_keepsBound w)
           (fun p => keepsBound_same_handles p _
                       (f_equal signer (connectWallet_minter w p))
                       (f_equal contract (connectWallet_minter w p)))
           (listener_keepsBound w)
           (fun x p => keepsBound_same_handles p _ eq_refl eq_refl)
           (handleFileChange_keepsBound w)
           (fun s p => keepsBound_same_handles p _ eq_refl eq_refl)
           (fun s p => keepsBound_same_handles p _ eq_refl eq_refl)).
  intros _. apply handleMint_keepsBound.
Qed.

Lemma accountsChanged_keepsBound (w : World) (accounts : list string) (p : Page) :
  keepsBound p (exec (App.accountsChanged w accounts) p).
Proof.
  apply (accountsChanged_rel w keepsBound keepsBound_trans
           (init_keepsBound w) (fetchNFTs_keepsBound w)
           (listener_keepsBound w)
           (fun x p => keepsBound_same_handles p _ eq_refl eq_refl)).
Qed.

Lemma mount_keepsBound (w : World) (p : Page) :
  keepsBound p (exec (App.mount w) p).
Proof.
  apply (mount_rel w keepsBound keepsBound_trans
           (init_keepsBound w) (fetchNFTs_keepsBound w)
           (fun p => keepsBound_same_handles p _
                       (f_equal signer (checkConnection_minter w p))
                       (f_equal contract (checkConnection_minter w p)))).
Qed.

Lemma actFrom_keepsBound (w0 w : World) (x : Action) (p : Page) :
  keepsBound p (exec (actFrom w0 w x) p).
Proof.
  destruct x; try apply (act_keepsBound w).
  cbn. destruct (ethereum w0); [apply accountsChanged_keepsBound|apply keepsBound_refl].
Qed.

Lemma runs_keepsBound (w0 : World) (steps : list (World * Action)) :
  forall p, keepsBound p (runs w0 steps p).
Proof.
  induction steps as [|[w x] steps IH]; intros p; cbn.
  - apply keepsBound_refl.
  - eapply keepsBound_trans; [apply actFrom_keepsBound|apply IH].
Qed.

Lemma journey_bound (w0 : World) (steps : list (World * Action)) :
  bound (minter (journey w0 steps)).
Proof.
  unfold journey. apply runs_keepsBound, mount_keepsBound. exact I.
Qed.

(** A session with the same answers throughout is one of them. *)
Lemma session_is_journey (w : World) (xs : list Action) :
  session w xs = journey w (map (pair w) xs).
Proof.
  unfold session, journey. generalize (exec (App.mount w) initialPage).
  induction xs as [|x xs IH]; intros p; cbn; [reflexivity|].
  rewrite <- IH. destruct x; reflexivity.
Qed.

(* ================================================================== *)
(** ** The mint submission flow *)
(* ================================================================== *)

(** C1. A successful mint submission (file chosen, name and description
    not empty, account, contract and signer present, both uploads, the
    mint call and the confirmation succeeding) appends exactly one entry
    to the gallery, whose name and description are the submitted texts
    and whose image is the reference the image upload returned; the
    file, the name, the description and the preview are cleared, and the
    success flag is set. *)
Theorem C1_mint_success
  (w : World) (p : Page) (f : File) (imageUri metadataUri : string) (tx : Tx)
  (receipt : JsValue) :
  mintReady p ->
  file (minter p) = Some f ->
  uploadToIPFS w f = Ok imageUri ->
  uploadMetadataToIPFS w
    (NFTMetadata.mk (name (minter p)) (description (minter p)) imageUri) = Ok metadataUri ->
  mintNFT w metadataUri = Ok tx ->
  wait w tx = Ok receipt ->
  let p' := exec (App.handleMint w) p in
  nfts (app p')
    = (nfts (app p)
       ++ [NFT.mk (JStr (name (minter p))) (JStr (description (minter p))) (JStr imageUri)])%list
  /\ List.length (nfts (app p')) = S (List.length (nfts (app p)))
  /\ file (minter p') = None
  /\ name (minter p') = ""
  /\ description (minter p') = ""
  /\ previewUrl (minter p') = None
  /\ mintingState (minter p') = MintingState.mk false None true.
Proof.
  intros (Hf & Hn & Hd & Ha & Hc & Hs) Hfile Himg Hmeta Hmint Hwait p'.
  subst p'.
  destruct p as [a [fl nm ds ct sg ms pv] cs con]; cbn in *.
  subst fl.
  destruct ct as [c|]; [|discriminate].
  destruct sg as [s|]; [|discriminate].
  apply String.eqb_neq in Hn, Hd.
  unfold exec, App.handleMint, NFTMinter.handleMint, bind, readApp, readMinter; cbn.
  rewrite Hn, Hd, Ha; cbn.
  unfold tryCatch, bind, await; cbn.
  rewrite Himg, Hmeta, Hmint, Hwait; cbn.
  rewrite length_app, Nat.add_comm. cbn.
  repeat split; reflexivity.
Qed.

Lemma C1_mint_success_witness :
  let p' := exec (App.handleMint Sample.world) Sample.filled in
  nfts (app p')
    = [Sample.oldItem;
       NFT.mk (JStr "Sunrise") (JStr "Dawn over the bay") (JStr "ipfs://Qmsunrise.png")]
  /\ List.length (nfts (app p')) = 2%nat
  /\ file (minter p') = None
  /\ name (minter p') = ""
  /\ description (minter p') = ""
  /\ previewUrl (minter p') = None
  /\ mintingState (minter p') = MintingState.mk false None true.
Proof.
  apply (C1_mint_success Sample.world Sample.filled Sample.picture
           "ipfs://Qmsunrise.png" "ipfs://QmMetaSunrise"
           (Build_Tx "0xhash:ipfs://QmMetaSunrise") (JObj [("status", JNum 1)])).
  - unfold mintReady; cbn. repeat split; discriminate.
  - reflexivity.
  - reflexivity.
  - reflexivity.
  - reflexivity.
  - reflexivity.
Defined.

(** C2. When the file is absent, or the name is empty, or the
    description is empty, or the account, the contract or the signer is
    missing, a mint submission sets an error message with the in-flight
    and success flags off, makes no call at all (so neither the storage
    uploads nor the mint function are invoked), and changes neither the
    form fields nor the gallery. *)
Theorem C2_mint_rejected_before_any_call (w : World) (p : Page) :
  file (minter p) = None
  \/ name (minter p) = ""
  \/ description (minter p) = ""
  \/ present (account (app p)) = false
  \/ contract (minter p) = None
  \/ signer (minter p) = None ->
  let p' := exec (App.handleMint w) p in
  (exists msg,
      mintingState (minter p') = MintingState.mk false (Some msg) false
      /\ (msg = "Please fill in all fields" \/ msg = "Please connect your wallet first"))
  /\ calls p' = calls p
  /\ file (minter p') = file (minter p)
  /\ name (minter p') = name (minter p)
  /\ description (minter p') = description (minter p)
  /\ previewUrl (minter p') = previewUrl (minter p)
  /\ contract (minter p') = contract (minter p)
  /\ signer (minter p') = signer (minter p)
  /\ app p' = app p.
Proof.
  intros H p'. subst p'.
  destruct p as [a [fl nm ds ct sg ms pv] cs con]; cbn in *.
  unfold exec, App.handleMint, NFTMinter.handleMint, bind, readApp, readMinter; cbn.
  destruct fl as [f|]; cbn.
  2:{ repeat split; eauto. }
  destruct (String.eqb_spec nm "") as [->|Hn]; cbn.
  { repeat split; eauto. }
  destruct (String.eqb_spec ds "") as [->|Hd]; cbn.
  { repeat split; eauto. }
  destruct (present (AppState.account a)) eqn:Ha; cbn.
  2:{ repeat split; eauto. }
  destruct ct as [c|]; cbn.
  2:{ repeat split; eauto. }
  destruct sg as [s|]; cbn.
  2:{ repeat split; eauto. }
  exfalso.
  destruct H as [H|[H|[H|[H|[H|H]]]]]; congruence.
Qed.

Lemma C2_mint_rejected_before_any_call_witness :
  let p := mkPage (app Sample.filled)
                  (MinterState.mk (Some Sample.picture) "Sunrise" ""
                     (Some Sample.aliceContract) (Some (Build_Signer Sample.alice))
                     (MintingState.mk false None false) (Some "blob:sunrise.png"))
                  [] [] in
  let p' := exec (App.handleMint Sample.world) p in
  (exists msg,
      mintingState (minter p') = MintingState.mk false (Some msg) false
      /\ (msg = "Please fill in all fields" \/ msg = "Please connect your wallet first"))
  /\ calls p' = calls p
  /\ file (minter p') = file (minter p)
  /\ name (minter p') = name (minter p)
  /\ description (minter p') = description (minter p)
  /\ previewUrl (minter p') = previewUrl (minter p)
  /\ contract (minter p') = contract (minter p)
  /\ signer (minter p') = signer (minter p)
  /\ app p' = app p.
Proof.
  intros p.
  apply (C2_mint_rejected_before_any_call Sample.world p).
  right; right; left. reflexivity.
Defined.

(** C3. When a mint submission passes the precondition checks and then
    fails at the image upload, the metadata upload, the mint call or the
    confirmation wait, the flow ends with the in-flight flag off, the
    success flag off and the error message taken from the failure: the
    message of the [Error] that was thrown, and the fixed text
    [Failed to mint NFT] when what was thrown is not an [Error];
    the gallery is unchanged, the form fields are not cleared, and the
    calls made are exactly those up to the failed one: nothing is issued
    afterwards to undo an upload. *)
Theorem C3_mint_failure
  (w : World) (p : Page) (f : File) (e : Exn) (made : list Call) :
  mintReady p ->
  file (minter p) = Some f ->
  MintFailure w f (name (minter p)) (description (minter p)) e made ->
  let p' := exec (App.handleMint w) p in
  mintingState (minter p')
    = MintingState.mk false
        (Some (match e with
               | JsError message => message
               | JsThrown _ => "Failed to mint NFT"
               end))
        false
  /\ app p' = app p
  /\ file (minter p') = file (minter p)
  /\ name (minter p') = name (minter p)
  /\ description (minter p') = description (minter p)
  /\ previewUrl (minter p') = previewUrl (minter p)
  /\ calls p' = (calls p ++ made)%list.
Proof.
  intros (Hf & Hn & Hd & Ha & Hc & Hs) Hfile Hfail p'.
  subst p'.
  destruct p as [a [fl nm ds ct sg ms pv] cs con]; cbn in *.
  subst fl.
  destruct ct as [c|]; [|discriminate].
  destruct sg as [s|]; [|discriminate].
  apply String.eqb_neq in Hn, Hd.
  unfold exec, App.handleMint, NFTMinter.handleMint, bind, readApp, readMinter; cbn.
  rewrite Hn, Hd, Ha; cbn.
  unfold tryCatch, bind, await; cbn.
  destruct Hfail as [e H1 | uri e H1 H2 | uri muri e H1 H2 H3 | uri muri tx e H1 H2 H3 H4].
  - rewrite H1; cbn. destruct e; repeat split; reflexivity.
  - rewrite H1, H2; cbn. rewrite <- !app_assoc. destruct e; repeat split; reflexivity.
  - rewrite H1, H2, H3; cbn. rewrite <- !app_assoc. destruct e; repeat split; reflexivity.
  - rewrite H1, H2, H3, H4; cbn. rewrite <- !app_assoc.
    destruct e; repeat split; reflexivity.
Qed.

Lemma C3_mint_failure_witness :
  let w := Sample.withMint (fun _ => Throw (JsError "insufficient funds")) Sample.world in
  let p' := exec (App.handleMint w) Sample.filled in
  mintingState (minter p') = MintingState.mk false (Some "insufficient funds") false
  /\ app p' = app Sample.filled
  /\ file (minter p') = Some Sample.picture
  /\ name (minter p') = "Sunrise"
  /\ description (minter p') = "Dawn over the bay"
  /\ previewUrl (minter p') = Some "blob:sunrise.png"
  /\ calls p'
     = [UploadToIPFS Sample.picture;
        UploadMetadataToIPFS
          (NFTMetadata.mk "Sunrise" "Dawn over the bay" "ipfs://Qmsunrise.png");
        MintNFT "ipfs://QmMetaSunrise"].
Proof.
  intros w.
  apply (C3_mint_failure w Sample.filled Sample.picture (JsError "insufficient funds")).
  - unfold mintReady; cbn. repeat split; discriminate.
  - reflexivity.
  - apply (MintCallFails w _ _ _ "ipfs://Qmsunrise.png" "ipfs://QmMetaSunrise");
      reflexivity.
Defined.

(* ================================================================== *)
(** ** The token gallery loader *)
(* ================================================================== *)

(** C5. A gallery load with an active account that reads a counter
    [n <> 0] from the contract resolves exactly one token, number
    [n - 1]: it reads the location string of that token and of no other,
    and the gallery it sets is what that location string resolves to.
    When the string decodes inline to an object, the gallery is the one
    item made of the object's fields, with [NFT #(n - 1)] and the fixed
    description for a missing or falsy name or description.  When the
    inline decoding fails and the gateway serves an object for that
    string, it is the one item made of that object, its image sent
    through the gateway (the default image when missing or falsy; no
    item when the image is truthy and not a string).  When the
    resolution fails, it is empty.  It never holds more than one
    item. *)
Theorem C5_only_latest_token_is_resolved
  (w : World) (p : Page) (a : option string) (eth : EthereumProvider) (s : Signer) (n : Z) :
  present a = true ->
  ethereum w = Some eth ->
  getSigner eth = Ok s ->
  getItemId w = Ok n ->
  n <> 0 ->
  let p' := exec (App.fetchNFTs w a) p in
  let field (fields : list (string * JsValue)) (k : string) :=
    match assoc k fields with Some x => x | None => JUndefined end in
  let item fields image :=
    NFT.mk (jsOr (field fields "name") (JStr ("NFT #" ++ toString (n - 1))))
           (jsOr (field fields "description")
                 (JStr "This is an NFT minted on the Westend Asset Hub"))
           image in
  (exists made,
      calls p' = (calls p ++ made)%list
      /\ tokenReads made = [n - 1]
      /\ (forall id, In (TokenURI id) made -> id = n - 1)
      /\ (List.length (nfts (app p')) <= 1)%nat)
  /\ (forall uri decoded fields,
        tokenURI w (n - 1) = Ok uri ->
        atob w (match nth_error (split "," uri) 1 with
                | Some d => d
                | None => "undefined"
                end) = Ok decoded ->
        JSON_parse w decoded = Ok (JObj fields) ->
        nfts (app p') = [item fields (field fields "image")])
  /\ (forall uri response fields,
        tokenURI w (n - 1) = Ok uri ->
        throws (App.inlineMetadata w (n - 1) uri) ->
        fetch w (getIpfsUrl w (replace "ipfs://" "" uri)) = Ok response ->
        ok response = true ->
        json response = Ok (JObj fields) ->
        nfts (app p')
        = (if truthy (field fields "image") then
             match field fields "image" with
             | JStr img =>
                 [item fields (JStr (getIpfsUrl w (replace "ipfs://" "" img)))]
             | _ => []
             end
           else
             [item fields
                (JStr "https://w3s.link/ipfs/QmXoypizjW3WknFiJnKLwHCnL72vedxjQkDDP1mXWo6uco")]))
  /\ (ResolutionFails w (n - 1) -> nfts (app p') = []).
Proof.
  intros Ha Heth Hs Hc Hn p' field item. subst p' field item.
  split; [|split; [|split]].
  - destruct (resolveToken_emits w n) as (l & cs & con & Hr & Htok & Hlen & _).
    rewrite (fetchNFTs_nonzero w a p eth s Ha Heth Hs n l cs con Hc Hn Hr); cbn.
    exists (GetSigner :: GetItemId :: cs). repeat split.
    + exact Htok.
    + intros id [H|[H|H]]; try discriminate.
      apply tokenReads_In in H. rewrite Htok in H.
      destruct H as [H|[]]. now symmetry.
    + exact Hlen.
  - intros uri decoded fields Hu Hatob Hparse.
    exact (gallery_inline_object w a p eth s n Ha Heth Hs Hc Hn uri decoded fields
             Hu Hatob Hparse).
  - intros uri response fields Hu Hin Hfetch Hok Hjson.
    exact (gallery_fallback_object w a p eth s n Ha Heth Hs Hc Hn uri response fields
             Hu Hin Hfetch Hok Hjson).
  - intros Hfail.
    exact (gallery_resolution_fails w a p eth s n Ha Heth Hs Hc Hn Hfail).
Qed.

Lemma C5_only_latest_token_is_resolved_witness :
  let p' := exec (App.fetchNFTs Sample.world (Some Sample.alice)) Sample.connected in
  (exists made,
      calls p' = (calls Sample.connected ++ made)%list
      /\ tokenReads made = [3 - 1]
      /\ (forall id, In (TokenURI id) made -> id = 3 - 1)
      /\ (List.length (nfts (app p')) <= 1)%nat)
  /\ nfts (app p')
     = [NFT.mk (JStr "Sunrise") (JStr "Dawn over the bay")
               (JStr "https://w3s.link/ipfs/QmImage")].
Proof.
  pose proof (C5_only_latest_token_is_resolved Sample.world Sample.connected
                (Some Sample.alice) Sample.wallet (Build_Signer Sample.alice) 3
                eq_refl eq_refl eq_refl eq_refl ltac:(discriminate)) as H.
  cbv zeta in H. destruct H as (Hcalls & _ & Hfallback & _).
  split; [exact Hcalls|].
  apply (Hfallback "ipfs://QmToken2" (Build_Response true "OK" (Ok Sample.document))
           [("name", JStr "Sunrise"); ("description", JStr "Dawn over the bay");
            ("image", JStr "ipfs://QmImage")]).
  - reflexivity.
  - intros q. eexists. reflexivity.
  - reflexivity.
  - reflexivity.
  - reflexivity.
Defined.

(** C6. A gallery load whose counter read returns zero sets the gallery
    to the empty list; the calls it makes are the signer request and the
    counter read, so no location string is read and nothing is
    fetched. *)
Theorem C6_zero_counter_empties_gallery
  (w : World) (p : Page) (a : option string) (eth : EthereumProvider) (s : Signer) :
  present a = true ->
  ethereum w = Some eth ->
  getSigner eth = Ok s ->
  getItemId w = Ok 0 ->
  let p' := exec (App.fetchNFTs w a) p in
  nfts (app p') = []
  /\ calls p' = (calls p ++ [GetSigner; GetItemId])%list
  /\ tokenReads (calls p') = tokenReads (calls p)
  /\ fetches (calls p') = fetches (calls p)
  /\ loading (app p') = false
  /\ error (app p') = error (app p).
Proof.
  intros Ha Heth Hs Hc p'. subst p'.
  rewrite (fetchNFTs_zero w a p eth s Ha Heth Hs Hc); cbn.
  rewrite tokenReads_app, fetches_app; cbn. rewrite !app_nil_r.
  repeat split.
Qed.

Lemma C6_zero_counter_empties_gallery_witness :
  let w := Sample.withCounter (Ok 0) Sample.world in
  let p' := exec (App.fetchNFTs w (Some Sample.alice)) Sample.connected in
  nfts (app p') = []
  /\ calls p' = (calls Sample.connected ++ [GetSigner; GetItemId])%list
  /\ tokenReads (calls p') = tokenReads (calls Sample.connected)
  /\ fetches (calls p') = fetches (calls Sample.connected)
  /\ loading (app p') = false
  /\ error (app p') = error (app Sample.connected).
Proof.
  intros w.
  apply (C6_zero_counter_empties_gallery w Sample.connected (Some Sample.alice)
           Sample.wallet (Build_Signer Sample.alice)); reflexivity.
Defined.

(** C7. In a gallery load, a failure while resolving the token (the
    read of its location string fails, or the inline decoding and the
    fallback fetch both fail) leaves a gallery of zero items and does
    not touch the error banner; a failure of the counter read sets the
    error banner. *)
Theorem C7_resolution_fails_silently_counter_read_loudly
  (w : World) (p : Page) (a : option string) (eth : EthereumProvider) (s : Signer) :
  present a = true ->
  ethereum w = Some eth ->
  getSigner eth = Ok s ->
  let p' := exec (App.fetchNFTs w a) p in
  (forall n, getItemId w = Ok n -> n <> 0 -> ResolutionFails w (n - 1) ->
     nfts (app p') = [] /\ error (app p') = error (app p))
  /\ (forall e, getItemId w = Throw e ->
        error (app p') = Some "Could not fetch your NFTs. Please try again later.").
Proof.
  intros Ha Heth Hs p'. subst p'. split.
  - intros n Hc Hn Hfail.
    destruct (resolveToken_emits w n) as (l & cs & con & Hr & _ & _ & Hread & Hboth).
    rewrite (fetchNFTs_nonzero w a p eth s Ha Heth Hs n l cs con Hc Hn Hr); cbn.
    split; [|reflexivity].
    destruct Hfail as [Hthrow | (uri & Huri & Hin & Hip)].
    + now apply Hread.
    + now apply (Hboth uri).
  - intros e Hc.
    now rewrite (fetchNFTs_counter_fails w a p eth s Ha Heth Hs e Hc).
Qed.

Lemma C7_resolution_fails_silently_counter_read_loudly_witness :
  let offline := Sample.withFetch (fun _ => Throw (JsError "Failed to fetch")) Sample.world in
  let down := Sample.withCounter (Throw (JsError "could not decode result data"))
                Sample.world in
  (nfts (app (exec (App.fetchNFTs offline (Some Sample.alice)) Sample.connected)) = []
   /\ error (app (exec (App.fetchNFTs offline (Some Sample.alice)) Sample.connected))
      = error (app Sample.connected))
  /\ error (app (exec (App.fetchNFTs down (Some Sample.alice)) Sample.connected))
     = Some "Could not fetch your NFTs. Please try again later.".
Proof.
  intros offline down. split.
  - apply (proj1 (C7_resolution_fails_silently_counter_read_loudly offline Sample.connected
                    (Some Sample.alice) Sample.wallet (Build_Signer Sample.alice)
                    eq_refl eq_refl eq_refl) 3).
    + reflexivity.
    + discriminate.
    + right. exists "ipfs://QmToken2". split; [reflexivity|].
      split; intros q; eexists; reflexivity.
  - apply (proj2 (C7_resolution_fails_silently_counter_read_loudly down Sample.connected
                    (Some Sample.alice) Sample.wallet (Build_Signer Sample.alice)
                    eq_refl eq_refl eq_refl) (JsError "could not decode result data")).
    reflexivity.
Defined.

(* ================================================================== *)
(** ** The wallet session *)
(* ================================================================== *)

(** C8. Connecting when no wallet provider is injected sets the error to
    the provider-missing message and does nothing else: no account is
    assigned, no request is issued, and in every session the account is
    unset afterwards. *)
Theorem C8_connect_without_provider (w : World) (p : Page) :
  ethereum w = None ->
  let p' := exec (App.connect w) p in
  error (app p') = Some "Please install MetaMask to use this application"
  /\ account (app p') = account (app p)
  /\ calls p' = calls p
  /\ nfts (app p') = nfts (app p)
  /\ minter p' = minter p
  /\ (forall xs, p = session w xs -> account (app p') = None).
Proof.
  intros Hw p'. subst p'.
  rewrite (connect_without_provider w Hw p); cbn.
  repeat split.
  intros xs ->. now apply session_without_provider.
Qed.

Lemma C8_connect_without_provider_witness :
  let w := Sample.withWallet None Sample.world in
  let p := session w [TypeName "Sunrise"; Mint] in
  let p' := exec (App.connect w) p in
  error (app p') = Some "Please install MetaMask to use this application"
  /\ account (app p') = account (app p)
  /\ calls p' = calls p
  /\ nfts (app p') = nfts (app p)
  /\ minter p' = minter p
  /\ (forall xs, p = session w xs -> account (app p') = None).
Proof.
  intros w p.
  apply (C8_connect_without_provider w p).
  reflexivity.
Defined.

(** C9. When [accountsChanged] is delivered with an empty list, the
    active account becomes none, and so do the signer and the contract
    handle of the minting form. *)
Theorem C9_empty_accounts_clear_session (w : World) (p : Page) :
  let p' := exec (App.accountsChanged w []) p in
  account (app p') = None
  /\ signer (minter p') = None
  /\ contract (minter p') = None.
Proof.
  intros p'. subst p'.
  unfold exec, App.accountsChanged, App.thenRender, App.handleAccountsChanged,
    NFTMinter.handleAccountsChanged, detach, exec, bind, readApp; cbn.
  destruct (account (app p)) as [x|]; cbn; [|repeat split].
  unfold App.accountEffects, detach, exec, bind, readApp, NFTMinter.init; cbn.
  destruct (ethereum w); cbn; repeat split.
Qed.

(** C10. When a provider is present and the request for account access
    fails (a declined prompt included), connecting leaves the account
    unset, whatever it was before, with the connect-failure message as
    the error and the connecting flag off. *)
Theorem C10_failed_connect_clears_account
  (w : World) (p : Page) (eth : EthereumProvider) (e : Exn) :
  ethereum w = Some eth ->
  eth_requestAccounts eth = Throw e ->
  let p' := exec (App.connect w) p in
  account (app p') = None
  /\ error (app p') = Some "Failed to connect wallet. Please try again."
  /\ isConnecting (app p') = false
  /\ calls p' = (calls p ++ [RequestAccounts])%list.
Proof.
  intros Hw Hreq p'. subst p'.
  unfold exec, App.connect, App.thenRender, App.connectWallet, detach, exec.
  rewrite Hw. unfold bind, readApp, tryFinally, tryCatch, await; cbn.
  rewrite Hreq; cbn.
  destruct (account (app p)) as [x|]; cbn; [|repeat split].
  unfold App.accountEffects, detach, exec, bind, readApp, NFTMinter.init; cbn.
  rewrite Hw; cbn. repeat split.
Qed.

Lemma C10_failed_connect_clears_account_witness :
  let w := Sample.withWallet (Some Sample.decliningWallet) Sample.world in
  let p' := exec (App.connect w) Sample.connected in
  account (app Sample.connected) = Some Sample.alice
  /\ account (app p') = None
  /\ error (app p') = Some "Failed to connect wallet. Please try again."
  /\ isConnecting (app p') = false
  /\ calls p' = (calls Sample.connected ++ [RequestAccounts])%list.
Proof.
  intros w. split; [reflexivity|].
  apply (C10_failed_connect_clears_account w Sample.connected Sample.decliningWallet
           (JsError "User rejected the request.")); reflexivity.
Defined.

(** C4. The gallery is not discarded on an account change.  When the
    account becomes unset, the list is kept as it was; and when the
    account changes from one address to another while the counter read
    fails, the page shows, for the other account, the entries of the
    first under the error banner. *)
Theorem C4_gallery_survives_account_change :
  (forall w p, nfts (app (exec (App.accountsChanged w []) p)) = nfts (app p))
  /\ (let w := Sample.withCounter (Throw (JsError "could not decode result data"))
                 Sample.world in
      let p' := exec (App.accountsChanged w [Sample.bob]) Sample.connected in
      App.view (app Sample.connected) = App.Gallery None [Sample.oldItem]
      /\ account (app Sample.connected) = Some Sample.alice
      /\ account (app p') = Some Sample.bob
      /\ App.view (app p')
         = App.Gallery (Some "Could not fetch your NFTs. Please try again later.")
                       [Sample.oldItem]).
Proof.
  split.
  - intros w p.
    unfold exec, App.accountsChanged, App.thenRender, App.handleAccountsChanged,
      NFTMinter.handleAccountsChanged, detach, exec, bind, readApp; cbn.
    destruct (account (app p)) as [x|]; cbn; [|reflexivity].
    unfold App.accountEffects, detach, exec, bind, readApp, NFTMinter.init; cbn.
    destruct (ethereum w); reflexivity.
  - cbv zeta. repeat split.
Qed.

(* ================================================================== *)
(** ** Further properties: the string helpers of the loader *)
(* ================================================================== *)

(** X1. [uri.split(',')[1]] on a data URI: when neither the header nor
    the payload holds a comma, the piece handed to [atob] is the
    payload. *)
Theorem X1_data_uri_payload (header payload : string) :
  free "," header = true ->
  free "," payload = true ->
  nth_error (split "," (header ++ String "," payload)) 1 = Some payload.
Proof.
  intros Hh Hp.
  rewrite (split_app_sep "," header payload Hh).
  now rewrite (split_free "," payload Hp).
Qed.

Lemma X1_data_uri_payload_witness :
  nth_error (split "," ("data:application/json;base64" ++ String "," "Nw==")) 1
  = Some "Nw==".
Proof.
  apply (X1_data_uri_payload "data:application/json;base64" "Nw=="); reflexivity.
Defined.

(* ================================================================== *)
(** ** Further properties: the mint submission flow *)
(* ================================================================== *)

(** X4. Whatever the page and whatever the collaborators answer, a press
    of [Mint NFT] ends with the in-flight flag off (the button never
    stays on its busy label), and in one of two ways: success, with no
    error, one more gallery entry and the form emptied; or no success,
    with an error message, the same gallery and the same form.  The
    account, the signer, the contract and the error of the page are
    never written. *)
Theorem X4_mint_always_settles (w : World) (p : Page) :
  let p' := exec (App.handleMint w) p in
  let ms := mintingState (minter p') in
  MintingState.isMinting ms = false
  /\ mintButtonLabel (minter p') <> LabelMinting
  /\ ((MintingState.success ms = true
       /\ MintingState.error ms = None
       /\ List.length (nfts (app p')) = S (List.length (nfts (app p)))
       /\ file (minter p') = None /\ name (minter p') = ""
       /\ description (minter p') = "" /\ previewUrl (minter p') = None)
      \/ (MintingState.success ms = false
          /\ (exists msg, MintingState.error ms = Some msg)
          /\ nfts (app p') = nfts (app p)
          /\ file (minter p') = file (minter p)
          /\ name (minter p') = name (minter p)
          /\ description (minter p') = description (minter p)
          /\ previewUrl (minter p') = previewUrl (minter p)))
  /\ account (app p') = account (app p)
  /\ error (app p') = error (app p)
  /\ signer (minter p') = signer (minter p)
  /\ contract (minter p') = contract (minter p).
Proof.
  intros p' ms. subst ms.
  pose proof (handleMint_outcome w p) as H. fold p' in H.
  destruct H as [Hrej | Hf Hn Hd Hrej | f e made Hready Hfile Hfail
                 | f imageUri metadataUri tx receipt Hready Hfile H1 H2 H3 H4]; cbn.
  - split; [reflexivity|].
    split; [unfold mintButtonLabel; cbn; destruct (signer (minter p)); discriminate|].
    split; [|repeat split]. right. repeat split; eauto.
  - split; [reflexivity|].
    split; [unfold mintButtonLabel; cbn; destruct (signer (minter p)); discriminate|].
    split; [|repeat split]. right. repeat split; eauto.
  - split; [reflexivity|].
    split; [unfold mintButtonLabel; cbn; destruct (signer (minter p)); discriminate|].
    split; [|repeat split]. right. repeat split; eauto.
  - split; [reflexivity|].
    split; [unfold mintButtonLabel; cbn; destruct (signer (minter p)); discriminate|].
    split; [|repeat split]. left. rewrite length_app, Nat.add_comm. repeat split.
Qed.

(** X5. A press of [Mint NFT] calls the contract's mint function at most
    once, and only with the reference returned by the upload of the
    metadata document made of the form's name and description and of
    the reference returned by the upload of the chosen file. *)
Theorem X5_mint_call_provenance (w : World) (p : Page) :
  let p' := exec (App.handleMint w) p in
  exists made,
    calls p' = (calls p ++ made)%list
    /\ (mints made = []
        \/ exists f imageUri uri,
             mints made = [uri]
             /\ file (minter p) = Some f
             /\ uploadToIPFS w f = Ok imageUri
             /\ uploadMetadataToIPFS w
                  (NFTMetadata.mk (name (minter p)) (description (minter p)) imageUri)
                = Ok uri).
Proof.
  intros p'.
  pose proof (handleMint_outcome w p) as H. fold p' in H.
  destruct H as [Hrej | Hf Hn Hd Hrej | f e made Hready Hfile Hfail
                 | f imageUri metadataUri tx receipt Hready Hfile H1 H2 H3 H4]; cbn.
  - exists []. rewrite app_nil_r. auto.
  - exists []. rewrite app_nil_r. auto.
  - exists made. split; [reflexivity|].
    destruct (MintFailure_mints _ _ _ _ _ _ Hfail) as [E|(imageUri & uri & E & H1 & H2)].
    + now left.
    + right. exists f, imageUri, uri. auto.
  - eexists. split; [reflexivity|]. right.
    exists f, imageUri, metadataUri. cbn. auto.
Qed.

(** X6. A second press of [Mint NFT] right after a successful one mints
    nothing: the form was emptied, so it is rejected with the
    fill-in-all-fields message, makes no call and leaves the gallery as
    the first press left it. *)
Theorem X6_second_press_mints_nothing
  (w : World) (p : Page) (f : File) (imageUri metadataUri : string) (tx : Tx)
  (receipt : JsValue) :
  mintReady p ->
  file (minter p) = Some f ->
  uploadToIPFS w f = Ok imageUri ->
  uploadMetadataToIPFS w
    (NFTMetadata.mk (name (minter p)) (description (minter p)) imageUri) = Ok metadataUri ->
  mintNFT w metadataUri = Ok tx ->
  wait w tx = Ok receipt ->
  let p1 := exec (App.handleMint w) p in
  let p2 := exec (App.handleMint w) p1 in
  calls p2 = calls p1
  /\ nfts (app p2) = nfts (app p1)
  /\ mintingState (minter p2)
     = MintingState.mk false (Some "Please fill in all fields") false.
Proof.
  intros Hready Hfile H1 H2 H3 H4 p1 p2. subst p2 p1.
  rewrite (handleMint_success_page w p f imageUri metadataUri tx receipt
             Hready Hfile H1 H2 H3 H4).
  repeat split.
Qed.

Lemma X6_second_press_mints_nothing_witness :
  let p1 := exec (App.handleMint Sample.world) Sample.filled in
  let p2 := exec (App.handleMint Sample.world) p1 in
  calls p2 = calls p1
  /\ nfts (app p2) = nfts (app p1)
  /\ mintingState (minter p2)
     = MintingState.mk false (Some "Please fill in all fields") false.
Proof.
  apply (X6_second_press_mints_nothing Sample.world Sample.filled Sample.picture
           "ipfs://Qmsunrise.png" "ipfs://QmMetaSunrise"
           (Build_Tx "0xhash:ipfs://QmMetaSunrise") (JObj [("status", JNum 1)])).
  - unfold mintReady; cbn. repeat split; discriminate.
  - reflexivity.
  - reflexivity.
  - reflexivity.
  - reflexivity.
  - reflexivity.
Defined.

(* ================================================================== *)
(** ** Further properties: sessions *)
(* ================================================================== *)

(** X7. Only a press of [Mint NFT] stores content or sends a
    transaction: no other action adds an upload, a mint call or a
    confirmation wait to the calls made, and a session (the mount
    included) in which the button is never pressed makes none. *)
Theorem X7_only_mint_spends (w : World) :
  (forall x p, x <> Mint ->
     filter spends (calls (exec (act w x) p)) = filter spends (calls p))
  /\ (forall xs, ~ In Mint xs -> filter spends (calls (session w xs)) = []).
Proof.
  split.
  - intros x p Hx. apply quietly_spends. now apply act_quietly.
  - intros xs Hxs.
    apply (quietly_spends initialPage (session w xs)). now apply session_quietly.
Qed.

Lemma X7_only_mint_spends_witness :
  filter spends (calls (exec (act Sample.world Connect) Sample.filled))
  = filter spends (calls Sample.filled)
  /\ filter spends
       (calls (session Sample.world
                 [ChooseFile [Sample.picture]; TypeName "Sunrise";
                  AccountsChanged [Sample.bob]; Connect]))
     = [].
Proof.
  split.
  - apply (proj1 (X7_only_mint_spends Sample.world) Connect Sample.filled).
    discriminate.
  - apply (proj2 (X7_only_mint_spends Sample.world)).
    intros [H|[H|[H|[H|[]]]]]; discriminate.
Defined.

(** X8. The signer and the contract handle of the form go together:
    every action, every delivery of [accountsChanged] and the mount,
    run from any page and with any answers of the collaborators, keep
    them both unset or both set with the contract being the deployed one
    run by the signer.  So they go together in every session, also when
    the wallet answers differently from one step to the next (refusing
    at mount, granting on connect). *)
Theorem X8_signer_and_contract_go_together :
  (forall w x p, bound (minter p) -> bound (minter (exec (act w x) p)))
  /\ (forall w accounts p,
        bound (minter p) -> bound (minter (exec (App.accountsChanged w accounts) p)))
  /\ (forall w p, bound (minter p) -> bound (minter (exec (App.mount w) p)))
  /\ (forall w0 steps,
        let m := minter (journey w0 steps) in
        isSome (contract m) = isSome (signer m)
        /\ match contract m with
           | Some c =>
               target c = NFT_MINTER_CONTRACT_ADDRESS
               /\ abi c = NFT_MINTER_ABI
               /\ signer m = Some (runner c)
           | None => signer m = None
           end).
Proof.
  split; [|split; [|split]].
  - intros w x p. apply act_keepsBound.
  - intros w accounts p. apply accountsChanged_keepsBound.
  - intros w p. apply mount_keepsBound.
  - intros w0 steps m. subst m.
    pose proof (journey_bound w0 steps) as H. unfold bound in H.
    destruct (signer (minter (journey w0 steps))) as [s|],
             (contract (minter (journey w0 steps))) as [c|]; try contradiction.
    + subst c. repeat split.
    + repeat split.
Qed.

Lemma X8_signer_and_contract_go_together_witness :
  let refusing :=
    Sample.withWallet
      (Some {| eth_requestAccounts := Throw (JsError "User rejected the request.");
               getSigner := Throw (JsError "User rejected the request.");
               getAddress := fun s => Ok (signerAddress s) |})
      Sample.world in
  let m := minter (journey refusing
                     [(Sample.world, Connect);
                      (Sample.world, AccountsChanged [Sample.bob]);
                      (refusing, AccountsChanged [Sample.alice])]) in
  bound (minter (exec (act Sample.world Mint) Sample.filled))
  /\ signer m = Some (Build_Signer Sample.alice)
  /\ isSome (contract m) = isSome (signer m)
  /\ match contract m with
     | Some c =>
         target c = NFT_MINTER_CONTRACT_ADDRESS
         /\ abi c = NFT_MINTER_ABI
         /\ signer m = Some (runner c)
     | None => signer m = None
     end.
Proof.
  intros refusing m.
  destruct X8_signer_and_contract_go_together as (Hact & _ & _ & Hjourney).
  split; [|split].
  - apply (Hact Sample.world Mint Sample.filled). reflexivity.
  - reflexivity.
  - apply (Hjourney refusing).
Defined.

(** X9. From any page on which the signer and the contract go together
    (every page a session reaches), when the form is shown, the
    [Mint NFT] button is enabled and the file, the name and the
    description are filled in, a press is never rejected for a missing
    wallet, whatever the collaborators answer: it starts with the
    upload of the chosen file. *)
Theorem X9_enabled_mint_starts_upload (w : World) (p : Page) (f : File) :
  bound (minter p) ->
  formShown p = true ->
  mintButtonDisabled (minter p) = false ->
  file (minter p) = Some f ->
  name (minter p) <> "" ->
  description (minter p) <> "" ->
  exists rest,
    calls (exec (App.handleMint w) p) = (calls p ++ UploadToIPFS f :: rest)%list.
Proof.
  intros Hb Hshown Hen Hfile Hn Hd.
  unfold bound in Hb.
  unfold mintButtonDisabled in Hen. apply orb_false_elim in Hen.
  destruct Hen as [_ Hsig]. apply negb_false_iff in Hsig.
  destruct (signer (minter p)) as [s|] eqn:Es; [|discriminate].
  destruct (contract (minter p)) as [c|] eqn:Ec; [|contradiction].
  pose proof (handleMint_outcome w p) as H.
  remember (exec (App.handleMint w) p) as p' eqn:Ep'.
  destruct H as [Hrej | Hf' Hn' Hd' Hrej | f' e made Hready Hfile' Hfail
                 | f' imageUri metadataUri tx receipt Hready Hfile' H1 H2 H3 H4]; cbn.
  - destruct Hrej as [H|[H|H]]; congruence.
  - unfold formShown in Hshown. destruct Hrej as [H|[H|H]]; congruence.
  - assert (f' = f) by congruence. subst f'.
    destruct (MintFailure_starts_with_upload _ _ _ _ _ _ Hfail) as [rest ->].
    now exists rest.
  - assert (f' = f) by congruence. subst f'.
    eexists. reflexivity.
Qed.

Lemma X9_enabled_mint_starts_upload_witness :
  let refusing :=
    Sample.withWallet
      (Some {| eth_requestAccounts := Throw (JsError "User rejected the request.");
               getSigner := Throw (JsError "User rejected the request.");
               getAddress := fun s => Ok (signerAddress s) |})
      Sample.world in
  let p := journey refusing
             [(Sample.world, Connect);
              (Sample.world, ChooseFile [Sample.picture]);
              (Sample.world, TypeName "Sunrise");
              (Sample.world, TypeDescription "Dawn over the bay")] in
  exists rest,
    calls (exec (App.handleMint Sample.world) p)
    = (calls p ++ UploadToIPFS Sample.picture :: rest)%list.
Proof.
  intros refusing p.
  apply (X9_enabled_mint_starts_upload Sample.world p Sample.picture).
  - reflexivity.
  - reflexivity.
  - reflexivity.
  - reflexivity.
  - discriminate.
  - discriminate.
Defined.

(* ================================================================== *)
(** ** Further properties: the wallet session *)
(* ================================================================== *)

(** X10. When the provider grants access, [connectWallet] issues exactly
    one request, sets the account to the first address returned (to
    none when the list is empty), clears the error whatever it was,
    turns the connecting flag off and leaves the gallery and the form
    alone. *)
Theorem X10_granted_connect
  (w : World) (p : Page) (eth : EthereumProvider) (accounts : list string) :
  ethereum w = Some eth ->
  eth_requestAccounts eth = Ok accounts ->
  let p' := exec (App.connectWallet w) p in
  account (app p') = hd_error accounts
  /\ error (app p') = None
  /\ isConnecting (app p') = false
  /\ calls p' = (calls p ++ [RequestAccounts])%list
  /\ nfts (app p') = nfts (app p)
  /\ minter p' = minter p.
Proof.
  intros Hw Hreq p'. subst p'.
  unfold exec, App.connectWallet. rewrite Hw.
  unfold tryFinally, tryCatch, bind, await; cbn.
  rewrite Hreq; cbn. repeat split.
Qed.

Lemma X10_granted_connect_witness :
  let p' := exec (App.connectWallet Sample.world) initialPage in
  account (app p') = hd_error [Sample.alice]
  /\ error (app p') = None
  /\ isConnecting (app p') = false
  /\ calls p' = (calls initialPage ++ [RequestAccounts])%list
  /\ nfts (app p') = nfts (app initialPage)
  /\ minter p' = minter initialPage.
Proof.
  apply (X10_granted_connect Sample.world initialPage Sample.wallet [Sample.alice]);
    reflexivity.
Defined.

(** X11. From a page without an account (where the [Connect Wallet]
    button is shown), a granted connect followed by its render binds the
    session: the account is the first address, the signer is the
    wallet's, the contract is the deployed one run by that signer, the
    spinner and the connecting flag are off, and the [Mint NFT] button
    is enabled unless a mint was in flight. *)
Theorem X11_connect_binds_session
  (w : World) (p : Page) (eth : EthereumProvider) (a : string) (rest : list string)
  (s : Signer) :
  ethereum w = Some eth ->
  eth_requestAccounts eth = Ok (a :: rest) ->
  a <> "" ->
  getSigner eth = Ok s ->
  present (account (app p)) = false ->
  let p' := exec (App.connect w) p in
  account (app p') = Some a
  /\ signer (minter p') = Some s
  /\ contract (minter p')
     = Some (Build_Contract NFT_MINTER_CONTRACT_ADDRESS NFT_MINTER_ABI s)
  /\ loading (app p') = false
  /\ isConnecting (app p') = false
  /\ mintButtonDisabled (minter p')
     = MintingState.isMinting (mintingState (minter p)).
Proof.
  intros Hw Hreq Ha Hs Hp p'. subst p'.
  assert (Hdiff : sameAccount (account (app p)) (Some a) = false).
  { destruct (account (app p)) as [x|]; cbn in *; [|reflexivity].
    apply negb_false_iff, String.eqb_eq in Hp. subst x.
    apply String.eqb_neq. congruence. }
  assert (Hpa : present (Some a) = true).
  { cbn. apply negb_true_iff, String.eqb_neq. exact Ha. }
  unfold exec, App.connect, App.thenRender, App.connectWallet, detach, exec.
  rewrite Hw. unfold bind, readApp, tryFinally, tryCatch, await; cbn.
  rewrite Hreq; cbn. rewrite Hdiff; cbn.
  unfold App.accountEffects, detach, exec, bind, readApp; cbn.
  unfold NFTMinter.init. rewrite Hw, Hpa.
  unfold tryCatch, bind, await; cbn. rewrite Hs; cbn.
  match goal with
  | |- context [App.fetchNFTs w (Some a) ?q] =>
      destruct (fetchNFTs_outcome w (Some a) q) as (Hl & Hacc & Hcon & Hm & _)
  end.
  unfold exec in Hl, Hacc, Hcon, Hm.
  rewrite Hl, Hacc, Hcon, Hm; cbn.
  unfold mintButtonDisabled; cbn. rewrite orb_false_r.
  repeat split.
Qed.

Lemma X11_connect_binds_session_witness :
  let p' := exec (App.connect Sample.world) initialPage in
  account (app p') = Some Sample.alice
  /\ signer (minter p') = Some (Build_Signer Sample.alice)
  /\ contract (minter p')
     = Some (Build_Contract NFT_MINTER_CONTRACT_ADDRESS NFT_MINTER_ABI
               (Build_Signer Sample.alice))
  /\ loading (app p') = false
  /\ isConnecting (app p') = false
  /\ mintButtonDisabled (minter p')
     = MintingState.isMinting (mintingState (minter initialPage)).
Proof.
  apply (X11_connect_binds_session Sample.world initialPage Sample.wallet
           Sample.alice [] (Build_Signer Sample.alice)).
  - reflexivity.
  - reflexivity.
  - discriminate.
  - reflexivity.
  - reflexivity.
Defined.

(** X12. When the provider announces a non-empty account list and the
    wallet gives a signer, the session is rebound whatever it was
    before: the account is the first address, the signer is the
    wallet's and the contract is the deployed one run by that signer. *)
Theorem X12_account_switch_rebinds
  (w : World) (p : Page) (eth : EthereumProvider) (a : string) (rest : list string)
  (s : Signer) :
  ethereum w = Some eth ->
  getSigner eth = Ok s ->
  a <> "" ->
  let p' := exec (App.accountsChanged w (a :: rest)) p in
  account (app p') = Some a
  /\ signer (minter p') = Some s
  /\ contract (minter p')
     = Some (Build_Contract NFT_MINTER_CONTRACT_ADDRESS NFT_MINTER_ABI s)
  /\ isConnecting (app p') = isConnecting (app p).
Proof.
  intros Hw Hs Ha p'. subst p'.
  assert (Hpa : present (Some a) = true).
  { cbn. apply negb_true_iff, String.eqb_neq. exact Ha. }
  unfold exec, App.accountsChanged, App.thenRender, App.handleAccountsChanged,
    NFTMinter.handleAccountsChanged, detach, exec.
  cbn [List.length hd_error]. rewrite Hpa, Hw.
  unfold bind, readApp, await; cbn. rewrite Hs; cbn.
  destruct (sameAccount (account (app p)) (Some a)); cbn; [repeat split|].
  unfold App.accountEffects, detach, exec, bind, readApp; cbn.
  unfold NFTMinter.init. rewrite Hw, Hpa.
  unfold tryCatch, bind, await; cbn. rewrite Hs; cbn.
  match goal with
  | |- context [App.fetchNFTs w (Some a) ?q] =>
      destruct (fetchNFTs_outcome w (Some a) q) as (_ & Hacc & Hcon & Hm & _)
  end.
  unfold exec in Hacc, Hcon, Hm.
  rewrite Hacc, Hcon, Hm; cbn.
  repeat split.
Qed.

Lemma X12_account_switch_rebinds_witness :
  let p' := exec (App.accountsChanged Sample.world [Sample.bob]) Sample.connected in
  account (app p') = Some Sample.bob
  /\ signer (minter p') = Some (Build_Signer Sample.alice)
  /\ contract (minter p')
     = Some (Build_Contract NFT_MINTER_CONTRACT_ADDRESS NFT_MINTER_ABI
               (Build_Signer Sample.alice))
  /\ isConnecting (app p') = isConnecting (app Sample.connected).
Proof.
  apply (X12_account_switch_rebinds Sample.world Sample.connected Sample.wallet
           Sample.bob [] (Build_Signer Sample.alice)).
  - reflexivity.
  - reflexivity.
  - discriminate.
Defined.

(** X13. When the provider announces the account that is already
    active, the gallery is not loaded again: the account, the gallery,
    the banner and the spinner stay as they are, and the only call that
    can be made is the signer request of the form's listener. *)
Theorem X13_same_account_does_not_reload
  (w : World) (p : Page) (a : string) (rest : list string) :
  account (app p) = Some a ->
  a <> "" ->
  let p' := exec (App.accountsChanged w (a :: rest)) p in
  account (app p') = Some a
  /\ nfts (app p') = nfts (app p)
  /\ error (app p') = error (app p)
  /\ loading (app p') = loading (app p)
  /\ (calls p' = calls p \/ calls p' = (calls p ++ [GetSigner])%list).
Proof.
  intros Hacc Ha p'. subst p'.
  assert (Hpa : present (Some a) = true).
  { cbn. apply negb_true_iff, String.eqb_neq. exact Ha. }
  unfold exec, App.accountsChanged, App.thenRender, App.handleAccountsChanged,
    NFTMinter.handleAccountsChanged, detach, exec.
  cbn [List.length hd_error]. rewrite Hpa.
  unfold bind, readApp, await; cbn. rewrite Hacc; cbn.
  destruct (ethereum w) as [eth|]; cbn.
  - destruct (getSigner eth) as [s|e]; cbn; rewrite String.eqb_refl; cbn;
      repeat split; auto.
  - rewrite String.eqb_refl; cbn. repeat split; auto.
Qed.

Lemma X13_same_account_does_not_reload_witness :
  let p' := exec (App.accountsChanged Sample.world [Sample.alice]) Sample.connected in
  account (app p') = Some Sample.alice
  /\ nfts (app p') = nfts (app Sample.connected)
  /\ error (app p') = error (app Sample.connected)
  /\ loading (app p') = loading (app Sample.connected)
  /\ (calls p' = calls Sample.connected
      \/ calls p' = (calls Sample.connected ++ [GetSigner])%list).
Proof.
  apply (X13_same_account_does_not_reload Sample.world Sample.connected Sample.alice []).
  - reflexivity.
  - discriminate.
Defined.

(** X14. The passive check at startup never raises the banner and
    touches nothing but the account and the error: the only calls it
    makes are [getSigner], then [getAddress] when a signer came back; it
    leaves the error as it was or clears it, and it leaves the gallery,
    the spinner and the form alone.  Without a provider it does
    nothing; when the wallet gives a signer and an address the account
    is that address and the error is cleared; in every other case the
    account is unset and the error is left as it was, the failure being
    only logged. *)
Theorem X14_passive_check_is_silent (w : World) (p : Page) :
  let p' := exec (App.checkConnection w) p in
  nfts (app p') = nfts (app p)
  /\ loading (app p') = loading (app p)
  /\ isConnecting (app p') = isConnecting (app p)
  /\ minter p' = minter p
  /\ (error (app p') = error (app p) \/ error (app p') = None)
  /\ ((ethereum w = None
       /\ account (app p') = account (app p) /\ error (app p') = error (app p)
       /\ calls p' = calls p /\ console p' = console p)
      \/ (exists eth s address,
             ethereum w = Some eth /\ getSigner eth = Ok s
             /\ getAddress eth s = Ok address
             /\ account (app p') = Some address /\ error (app p') = None
             /\ calls p' = (calls p ++ [GetSigner; GetAddress])%list
             /\ console p' = console p)
      \/ (account (app p') = None /\ error (app p') = error (app p)
          /\ (calls p' = (calls p ++ [GetSigner])%list
              \/ calls p' = (calls p ++ [GetSigner; GetAddress])%list)
          /\ console p' = (console p ++ ["Error checking connection:"])%list)).
Proof.
  intros p'. subst p'.
  unfold exec, App.checkConnection.
  destruct (ethereum w) as [eth|] eqn:Hw; cbn.
  2:{ repeat split; auto. left. repeat split. }
  unfold tryCatch, bind, await; cbn.
  destruct (getSigner eth) as [s|e] eqn:Hs; cbn.
  2:{ repeat split; auto. right; right. repeat split. now left. }
  destruct (getAddress eth s) as [address|e] eqn:Hadd; cbn.
  - repeat split; auto.
    right; left. exists eth, s, address. rewrite <- app_assoc. repeat split; auto.
  - repeat split; auto.
    right; right. rewrite <- app_assoc. repeat split. now right.
Qed.

(** X15. At mount, when [getSigner] gives a signer and [getAddress] a
    non-empty address, the page adopts that address: the account is the
    address, the signer and the contract of the form are bound to the
    signer, the error set by the check is none unless the load that
    follows sets one, the spinner is off, and nothing was stored or
    sent.  The calls are the two of the check, the signer request of
    the form, then those of the load for that address. *)
Theorem X15_mount_adopts_authorized_account
  (w : World) (eth : EthereumProvider) (s : Signer) (address : string) :
  ethereum w = Some eth ->
  getSigner eth = Ok s ->
  getAddress eth s = Ok address ->
  address <> "" ->
  let p := session w [] in
  account (app p) = Some address
  /\ signer (minter p) = Some s
  /\ contract (minter p)
     = Some (Build_Contract NFT_MINTER_CONTRACT_ADDRESS NFT_MINTER_ABI s)
  /\ loading (app p) = false
  /\ (exists made,
        calls p = ([GetSigner; GetAddress; GetSigner] ++ made)%list
        /\ forallb reads made = true)
  /\ filter spends (calls p) = [].
Proof.
  intros Hw Hs Hadd Ha p.
  subst p. rewrite (mount_authorized w eth s address Hw Hs Hadd Ha).
  match goal with
  | |- context [exec (App.fetchNFTs w (Some address)) ?q] =>
      destruct (fetchNFTs_outcome w (Some address) q)
        as (Hl & Hacc & _ & Hm & (made & Hcalls & Hreads) & _)
  end.
  cbn in Hacc, Hcalls.
  rewrite Hl, Hacc, Hm, Hcalls; cbn.
  repeat split; eauto.
  now apply reads_spend_nothing.
Qed.

Lemma X15_mount_adopts_authorized_account_witness :
  let p := session Sample.world [] in
  account (app p) = Some Sample.alice
  /\ signer (minter p) = Some (Build_Signer Sample.alice)
  /\ contract (minter p)
     = Some (Build_Contract NFT_MINTER_CONTRACT_ADDRESS NFT_MINTER_ABI
               (Build_Signer Sample.alice))
  /\ loading (app p) = false
  /\ (exists made,
        calls p = ([GetSigner; GetAddress; GetSigner] ++ made)%list
        /\ forallb reads made = true)
  /\ filter spends (calls p) = [].
Proof.
  apply (X15_mount_adopts_authorized_account Sample.world Sample.wallet
           (Build_Signer Sample.alice) Sample.alice).
  - reflexivity.
  - reflexivity.
  - reflexivity.
  - discriminate.
Defined.

(** X16. At mount, when there is no provider, or [getSigner] fails, or
    [getAddress] fails, the page stays disconnected and shows no error:
    no account, no error banner, the spinner off, an empty gallery, the
    form untouched and the connect button shown.  The only calls made
    are those of the check: none, [getSigner], or [getSigner] and
    [getAddress]. *)
Theorem X16_mount_without_authorization (w : World) :
  ethereum w = None
  \/ (exists eth e, ethereum w = Some eth /\ getSigner eth = Throw e)
  \/ (exists eth s e,
         ethereum w = Some eth /\ getSigner eth = Ok s /\ getAddress eth s = Throw e) ->
  let p := session w [] in
  app p = AppState.mk [] false None None false
  /\ minter p = MinterState.init
  /\ App.view (app p) = App.ConnectButton
  /\ (calls p = [] \/ calls p = [GetSigner] \/ calls p = [GetSigner; GetAddress]).
Proof.
  intros H p. subst p. unfold session, run. rewrite exec_mount.
  cbn [app initialPage account AppState.init].
  rewrite (init_unset w initialPage None eq_refl).
  rewrite (fetchNFTs_no_account w None initialPage eq_refl).
  destruct H as [Hw|[(eth & e & Hw & Hs)|(eth & s & e & Hw & Hs & Hadd)]].
  - unfold exec, App.checkConnection. rewrite Hw. cbn.
    repeat split. now left.
  - unfold exec, App.checkConnection. rewrite Hw.
    unfold tryCatch, bind, await; cbn. rewrite Hs; cbn.
    repeat split. right; now left.
  - unfold exec, App.checkConnection. rewrite Hw.
    unfold tryCatch, bind, await; cbn. rewrite Hs; cbn. rewrite Hadd; cbn.
    repeat split. right; now right.
Qed.

Lemma X16_mount_without_authorization_witness :
  let w :=
    Sample.withWallet
      (Some {| eth_requestAccounts := Throw (JsError "User rejected the request.");
               getSigner := Throw (JsError "User rejected the request.");
               getAddress := fun s => Ok (signerAddress s) |})
      Sample.world in
  let p := session w [] in
  app p = AppState.mk [] false None None false
  /\ minter p = MinterState.init
  /\ App.view (app p) = App.ConnectButton
  /\ (calls p = [] \/ calls p = [GetSigner] \/ calls p = [GetSigner; GetAddress]).
Proof.
  intros w.
  apply (X16_mount_without_authorization w).
  right; left. do 2 eexists. split; reflexivity.
Defined.

(* ================================================================== *)
(** ** Further properties: the token gallery loader *)
(* ================================================================== *)

(** X17. Whatever the account, the page and the answers of the
    collaborators, a gallery load ends with the spinner off; it writes
    neither the account, nor the connecting flag, nor the form; the
    calls it makes are the signer request and reads only; and either it
    leaves the banner as it was (it never clears one), or it sets the
    banner and leaves the gallery as it was. *)
Theorem X17_load_outcome (w : World) (a : option string) (p : Page) :
  let p' := exec (App.fetchNFTs w a) p in
  loading (app p') = false
  /\ App.view (app p') <> App.Spinner
  /\ account (app p') = account (app p)
  /\ isConnecting (app p') = isConnecting (app p)
  /\ minter p' = minter p
  /\ (exists made, calls p' = (calls p ++ made)%list /\ forallb reads made = true)
  /\ (error (app p') = error (app p)
      \/ exists msg, error (app p') = Some msg /\ nfts (app p') = nfts (app p)).
Proof.
  intros p'.
  destruct (fetchNFTs_outcome w a p) as (Hl & Hacc & Hcon & Hm & Hcalls & Herr).
  fold p' in Hl, Hacc, Hcon, Hm, Hcalls, Herr.
  split; [exact Hl|]. split; [|auto 10].
  unfold App.view. rewrite Hl.
  destruct (present (account (app p'))); [|discriminate].
  destruct (forallb _ (nfts (app p'))); discriminate.
Qed.

(** X18. When the location string of the latest token decodes inline
    (the piece after the first comma passes [atob], the text parses, and
    the document is neither [null] nor [undefined]), the load makes no
    fetch: its calls are the signer request, the counter read and the
    one token read; the gallery is the one item built from the
    document, with the name and the description falling back to
    [NFT #id] and to the fixed text when missing or falsy, and the image
    taken as it is; the banner and the console are untouched. *)
Theorem X18_inline_metadata_needs_no_fetch
  (w : World) (p : Page) (a : option string) (eth : EthereumProvider) (s : Signer)
  (n : Z) (uri decoded : string) (fields : list (string * JsValue)) :
  present a = true ->
  ethereum w = Some eth ->
  getSigner eth = Ok s ->
  getItemId w = Ok n ->
  n <> 0 ->
  tokenURI w (n - 1) = Ok uri ->
  atob w (match nth_error (split "," uri) 1 with Some d => d | None => "undefined" end)
  = Ok decoded ->
  JSON_parse w decoded = Ok (JObj fields) ->
  let field k := match assoc k fields with Some x => x | None => JUndefined end in
  let p' := exec (App.fetchNFTs w a) p in
  nfts (app p')
  = [NFT.mk (jsOr (field "name") (JStr ("NFT #" ++ toString (n - 1))))
            (jsOr (field "description") App.defaultDescription)
            (field "image")]
  /\ calls p' = (calls p ++ [GetSigner; GetItemId; TokenURI (n - 1)])%list
  /\ error (app p') = error (app p)
  /\ console p' = console p.
Proof.
  intros Ha Hw Hs Hc Hn Hu Hatob Hparse field p'. subst p'.
  assert (Hin : emits (App.inlineMetadata w (n - 1) uri)
                  (Ok [NFT.mk (jsOr (field "name") (JStr ("NFT #" ++ toString (n - 1))))
                              (jsOr (field "description") App.defaultDescription)
                              (field "image")]) [] []).
  { intros [qa qm qc qcon]. unfold App.inlineMetadata, bind, lift, ret.
    rewrite Hatob, Hparse, !getProp_object. cbn. now rewrite !app_nil_r. }
  rewrite (fetchNFTs_nonzero w a p eth s Ha Hw Hs n _ _ _ Hc Hn
             (resolveToken_inline w n uri _ Hu Hin)); cbn.
  rewrite app_nil_r. repeat split.
Qed.

Lemma X18_inline_metadata_needs_no_fetch_witness :
  let w :=
    Sample.withTokenURI (fun _ => Ok "data:application/json;base64,e30=")
      {| ethereum := Some Sample.wallet;
         getItemId := Ok 3;
         tokenURI := tokenURI Sample.world;
         mintNFT := mintNFT Sample.world;
         wait := wait Sample.world;
         atob := fun _ => Ok "{}";
         JSON_parse := fun _ => Ok (JObj [("image", JStr "ipfs://QmImage")]);
         fetch := fetch Sample.world;
         getIpfsUrl := getIpfsUrl Sample.world;
         uploadToIPFS := uploadToIPFS Sample.world;
         uploadMetadataToIPFS := uploadMetadataToIPFS Sample.world;
         createObjectURL := createObjectURL Sample.world |} in
  let p' := exec (App.fetchNFTs w (Some Sample.alice)) Sample.connected in
  nfts (app p')
  = [NFT.mk (JStr "NFT #2") App.defaultDescription (JStr "ipfs://QmImage")]
  /\ calls p' = (calls Sample.connected ++ [GetSigner; GetItemId; TokenURI (3 - 1)])%list
  /\ error (app p') = error (app Sample.connected)
  /\ console p' = console Sample.connected.
Proof.
  intros w.
  apply (X18_inline_metadata_needs_no_fetch w Sample.connected (Some Sample.alice)
           Sample.wallet (Build_Signer Sample.alice) 3
           "data:application/json;base64,e30=" "{}" [("image", JStr "ipfs://QmImage")]).
  - reflexivity.
  - reflexivity.
  - reflexivity.
  - reflexivity.
  - discriminate.
  - reflexivity.
  - reflexivity.
  - reflexivity.
Defined.

(** X19. When the inline decoding fails and the gateway answers with a
    response that is not [ok], the body is never read: the calls of the
    load stop at the fetch, the gallery is set to the empty list, the
    banner is untouched, and the two failures are only logged. *)
Theorem X19_rejected_response_is_not_read
  (w : World) (p : Page) (a : option string) (eth : EthereumProvider) (s : Signer)
  (n : Z) (uri : string) (response : Response) :
  present a = true ->
  ethereum w = Some eth ->
  getSigner eth = Ok s ->
  getItemId w = Ok n ->
  n <> 0 ->
  tokenURI w (n - 1) = Ok uri ->
  throws (App.inlineMetadata w (n - 1) uri) ->
  fetch w (getIpfsUrl w (replace "ipfs://" "" uri)) = Ok response ->
  ok response = false ->
  let p' := exec (App.fetchNFTs w a) p in
  nfts (app p') = []
  /\ calls p'
     = (calls p ++ [GetSigner; GetItemId; TokenURI (n - 1);
                    Fetch (getIpfsUrl w (replace "ipfs://" "" uri))])%list
  /\ error (app p') = error (app p)
  /\ console p'
     = (console p ++ ["Error processing metadata:"; "Error fetching from IPFS:"])%list.
Proof.
  intros Ha Hw Hs Hc Hn Hu Hin Hfetch Hok p'. subst p'.
  destruct (inlineMetadata_throws_emits w (n - 1) uri Hin) as [e1 H1].
  assert (H2 : emits (App.ipfsMetadata w (n - 1) uri)
                 (Throw (JsError ("Failed to fetch metadata: " ++ statusText response)))
                 [Fetch (getIpfsUrl w (replace "ipfs://" "" uri))] []).
  { intros [qa qm qc qcon]. unfold App.ipfsMetadata, bind, await, throw.
    rewrite Hfetch; cbn. rewrite Hok; cbn. now rewrite app_nil_r. }
  rewrite (fetchNFTs_nonzero w a p eth s Ha Hw Hs n _ _ _ Hc Hn
             (resolveToken_fallback w n uri e1 _ _ Hu H1 H2)); cbn.
  repeat split.
Qed.

Lemma X19_rejected_response_is_not_read_witness :
  let w := Sample.withFetch (fun _ => Ok (Build_Response false "Not Found" (Ok JNull)))
             Sample.world in
  let p' := exec (App.fetchNFTs w (Some Sample.alice)) Sample.connected in
  nfts (app p') = []
  /\ calls p'
     = (calls Sample.connected
        ++ [GetSigner; GetItemId; TokenURI (3 - 1);
            Fetch (getIpfsUrl w (replace "ipfs://" "" "ipfs://QmToken2"))])%list
  /\ error (app p') = error (app Sample.connected)
  /\ console p'
     = (console Sample.connected
        ++ ["Error processing metadata:"; "Error fetching from IPFS:"])%list.
Proof.
  intros w.
  apply (X19_rejected_response_is_not_read w Sample.connected (Some Sample.alice)
           Sample.wallet (Build_Signer Sample.alice) 3 "ipfs://QmToken2"
           (Build_Response false "Not Found" (Ok JNull))).
  - reflexivity.
  - reflexivity.
  - reflexivity.
  - reflexivity.
  - discriminate.
  - reflexivity.
  - intros q. eexists. reflexivity.
  - reflexivity.
  - reflexivity.
Defined.

(** X20. When the inline decoding fails and the gateway serves a JSON
    object, the image of the item depends on the object's [image]: a
    non-empty string is stripped of its first [ipfs://] and sent through
    the gateway; a missing or falsy one gives the fixed default image;
    a truthy value that is not a string makes the fallback fail, so the
    gallery is empty.  The body is read once, after the fetch. *)
Theorem X20_fallback_image
  (w : World) (p : Page) (a : option string) (eth : EthereumProvider) (s : Signer)
  (n : Z) (uri : string) (response : Response) (fields : list (string * JsValue)) :
  present a = true ->
  ethereum w = Some eth ->
  getSigner eth = Ok s ->
  getItemId w = Ok n ->
  n <> 0 ->
  tokenURI w (n - 1) = Ok uri ->
  throws (App.inlineMetadata w (n - 1) uri) ->
  fetch w (getIpfsUrl w (replace "ipfs://" "" uri)) = Ok response ->
  ok response = true ->
  json response = Ok (JObj fields) ->
  let field k := match assoc k fields with Some x => x | None => JUndefined end in
  let item img :=
    NFT.mk (jsOr (field "name") (JStr ("NFT #" ++ toString (n - 1))))
           (jsOr (field "description") App.defaultDescription)
           (JStr img) in
  let p' := exec (App.fetchNFTs w a) p in
  nfts (app p')
  = (if truthy (field "image") then
       match field "image" with
       | JStr img => [item (getIpfsUrl w (replace "ipfs://" "" img))]
       | _ => []
       end
     else [item App.defaultImage])
  /\ calls p'
     = (calls p ++ [GetSigner; GetItemId; TokenURI (n - 1);
                    Fetch (getIpfsUrl w (replace "ipfs://" "" uri)); ResponseJson])%list
  /\ error (app p') = error (app p).
Proof.
  intros Ha Hw Hs Hc Hn Hu Hin Hfetch Hok Hjson field item p'. subst p'.
  destruct (inlineMetadata_throws_emits w (n - 1) uri Hin) as [e1 H1].
  assert (H2 : exists r2,
             emits (App.ipfsMetadata w (n - 1) uri) r2
               [Fetch (getIpfsUrl w (replace "ipfs://" "" uri)); ResponseJson] []
             /\ match r2 with Ok l => l | Throw _ => [] end
                = (if truthy (field "image") then
                     match field "image" with
                     | JStr img => [item (getIpfsUrl w (replace "ipfs://" "" img))]
                     | _ => []
                     end
                   else [item App.defaultImage])).
  { subst item. unfold field.
    destruct (match assoc "image" fields with Some x => x | None => JUndefined end)
      as [| |b|z|img|items|obj] eqn:Ei;
      try destruct b; try destruct (Z.eqb_spec z 0) as [Hz|Hz];
      try destruct (String.eqb_spec img "") as [Himg|Himg];
      eexists; (split;
        [ intros [qa qm qc qcon];
          unfold App.ipfsMetadata, bind, await, throw, lift, ret;
          rewrite Hfetch; cbn; rewrite Hok; cbn; rewrite Hjson; cbn;
          rewrite Ei; cbn;
          rewrite ?Hz, ?Himg; cbn;
          try (apply Z.eqb_neq in Hz; rewrite Hz; cbn);
          try (apply String.eqb_neq in Himg; rewrite Himg; cbn);
          rewrite <- ?app_assoc, ?app_nil_r; cbn; reflexivity
        | cbn; rewrite ?Hz, ?Himg; cbn;
          try (apply Z.eqb_neq in Hz; rewrite Hz; cbn);
          try (apply String.eqb_neq in Himg; rewrite Himg; cbn);
          reflexivity ]). }
  destruct H2 as (r2 & H2 & Hr2).
  rewrite (fetchNFTs_nonzero w a p eth s Ha Hw Hs n _ _ _ Hc Hn
             (resolveToken_fallback w n uri e1 _ _ Hu H1 H2)); cbn.
  rewrite Hr2. repeat split.
Qed.

Lemma X20_fallback_image_witness :
  let p' := exec (App.fetchNFTs Sample.world (Some Sample.alice)) Sample.connected in
  nfts (app p')
  = [NFT.mk (JStr "Sunrise") (JStr "Dawn over the bay")
            (JStr "https://w3s.link/ipfs/QmImage")]
  /\ calls p'
     = (calls Sample.connected
        ++ [GetSigner; GetItemId; TokenURI (3 - 1);
            Fetch (getIpfsUrl Sample.world (replace "ipfs://" "" "ipfs://QmToken2"));
            ResponseJson])%list
  /\ error (app p') = error (app Sample.connected).
Proof.
  apply (X20_fallback_image Sample.world Sample.connected (Some Sample.alice)
           Sample.wallet (Build_Signer Sample.alice) 3 "ipfs://QmToken2"
           (Build_Response true "OK" (Ok Sample.document))
           [("name", JStr "Sunrise"); ("description", JStr "Dawn over the bay");
            ("image", JStr "ipfs://QmImage")]).
  - reflexivity.
  - reflexivity.
  - reflexivity.
  - reflexivity.
  - discriminate.
  - reflexivity.
  - intros q. eexists. reflexivity.
  - reflexivity.
  - reflexivity.
  - reflexivity.
Defined.

(** X21. When a load cannot get as far as the contract (no provider, or
    the signer request fails), the banner takes the message of the
    failure itself (the fixed install text without a provider, the
    [Error]'s message, or the generic text for another thrown value),
    the gallery is kept, the spinner is turned off and the counter is
    never read. *)
Theorem X21_load_without_signer
  (w : World) (p : Page) (a : option string) :
  present a = true ->
  (ethereum w = None
   \/ exists eth e, ethereum w = Some eth /\ getSigner eth = Throw e) ->
  let p' := exec (App.fetchNFTs w a) p in
  error (app p')
  = Some (match ethereum w with
          | None => "Please install MetaMask"
          | Some eth =>
              match getSigner eth with
              | Throw (JsError message) => message
              | _ => "Failed to fetch NFTs"
              end
          end)
  /\ nfts (app p') = nfts (app p)
  /\ loading (app p') = false
  /\ (calls p' = calls p \/ calls p' = (calls p ++ [GetSigner])%list)
  /\ console p' = (console p ++ ["Error fetching NFTs:"])%list.
Proof.
  intros Ha [Hw|(eth & e & Hw & Hs)] p'; subst p'.
  - rewrite (fetchNFTs_no_provider w a p Ha Hw), Hw; cbn. repeat split. now left.
  - rewrite (fetchNFTs_signer_fails w a p eth e Ha Hw Hs), Hw, Hs; cbn.
    destruct e; repeat split; now right.
Qed.

Lemma X21_load_without_signer_witness :
  let w := Sample.withWallet None Sample.world in
  let p' := exec (App.fetchNFTs w (Some Sample.alice)) Sample.connected in
  error (app p') = Some "Please install MetaMask"
  /\ nfts (app p') = nfts (app Sample.connected)
  /\ loading (app p') = false
  /\ (calls p' = calls Sample.connected
      \/ calls p' = (calls Sample.connected ++ [GetSigner])%list)
  /\ console p' = (console Sample.connected ++ ["Error fetching NFTs:"])%list.
Proof.
  intros w.
  apply (X21_load_without_signer w Sample.connected (Some Sample.alice)).
  - reflexivity.
  - left. reflexivity.
Defined.

(** X3. A location string that is a plain content identifier,
    [ipfs://] followed by an identifier without a comma, has no second
    piece, so [atob] is handed the text [undefined]; when [atob] rejects
    it, the load fetches the gateway address of the bare identifier, and
    after that token read and that fetch it can only read the body. *)
Theorem X3_plain_identifier_goes_to_gateway
  (w : World) (p : Page) (a : option string) (eth : EthereumProvider) (s : Signer)
  (n : Z) (cid : string) (e : Exn) :
  present a = true ->
  ethereum w = Some eth ->
  getSigner eth = Ok s ->
  getItemId w = Ok n ->
  n <> 0 ->
  tokenURI w (n - 1) = Ok ("ipfs://" ++ cid) ->
  free "," cid = true ->
  atob w "undefined" = Throw e ->
  let p' := exec (App.fetchNFTs w a) p in
  exists rest,
    calls p'
    = (calls p ++ [GetSigner; GetItemId; TokenURI (n - 1); Fetch (getIpfsUrl w cid)]
               ++ rest)%list
    /\ (rest = [] \/ rest = [ResponseJson]).
Proof.
  intros Ha Hw Hs Hc Hn Hu Hfree Hatob p'. subst p'.
  assert (Hsplit : nth_error (split "," ("ipfs://" ++ cid)) 1 = None).
  { rewrite split_free; [reflexivity|]. rewrite free_app, Hfree. reflexivity. }
  assert (H1 : emits (App.inlineMetadata w (n - 1) ("ipfs://" ++ cid)) (Throw e) [] []).
  { intros [qa qm qc qcon]. unfold App.inlineMetadata, bind, lift.
    rewrite Hsplit, Hatob; cbn. now rewrite !app_nil_r. }
  destruct (ipfsMetadata_shape w (n - 1) ("ipfs://" ++ cid))
    as (r2 & cs2 & con2 & H2 & -> & Hshape).
  rewrite replace_prefix in Hshape. cbn [append] in Hshape.
  rewrite (fetchNFTs_nonzero w a p eth s Ha Hw Hs n _ _ _ Hc Hn
             (resolveToken_fallback w n _ e _ _ Hu H1 H2)); cbn [calls].
  destruct Hshape as [-> | ->].
  - exists []. split; [reflexivity|now left].
  - exists [ResponseJson]. split; [reflexivity|now right].
Qed.

Lemma X3_plain_identifier_goes_to_gateway_witness :
  let p' := exec (App.fetchNFTs Sample.world (Some Sample.alice)) Sample.connected in
  exists rest,
    calls p'
    = (calls Sample.connected
       ++ [GetSigner; GetItemId; TokenURI (3 - 1);
           Fetch (getIpfsUrl Sample.world "QmToken2")] ++ rest)%list
    /\ (rest = [] \/ rest = [ResponseJson]).
Proof.
  apply (X3_plain_identifier_goes_to_gateway Sample.world Sample.connected
           (Some Sample.alice) Sample.wallet (Build_Signer Sample.alice) 3 "QmToken2"
           (JsError "The string to be decoded is not correctly encoded.")).
  - reflexivity.
  - reflexivity.
  - reflexivity.
  - reflexivity.
  - discriminate.
  - reflexivity.
  - reflexivity.
  - reflexivity.
Defined.

(** X2. [s.replace(pat, rep)] as the loader uses it on location strings
    and image references: a string that starts with the pattern loses
    that first occurrence and nothing else, and a string in which the
    pattern does not occur is returned as it is. *)
Theorem X2_replace_first_occurrence (pat rep : string) :
  (forall s, replace pat rep (pat ++ s) = rep ++ s)
  /\ (forall s, index 0 pat s = None -> replace pat rep s = s).
Proof.
  split.
  - intros s. apply replace_prefix.
  - intros s. apply replace_absent.
Qed.

Lemma X2_replace_first_occurrence_witness :
  replace "ipfs://" "" ("ipfs://" ++ "QmA/ipfs://QmB") = "" ++ "QmA/ipfs://QmB"
  /\ replace "ipfs://" "" "https://example.org/meta.json" = "https://example.org/meta.json".
Proof.
  split.
  - apply (proj1 (X2_replace_first_occurrence "ipfs://" "")).
  - apply (proj2 (X2_replace_first_occurrence "ipfs://" "")). reflexivity.
Defined.

(** X22. A load that reads the counter makes the gallery a function of
    the chain alone: whatever the gallery held before (entries appended
    by a mint included), the gallery after the load is the same, and it
    holds at most one item. *)
Theorem X22_load_replaces_gallery
  (w : World) (a : option string) (eth : EthereumProvider) (s : Signer) (n : Z)
  (p q : Page) :
  present a = true ->
  ethereum w = Some eth ->
  getSigner eth = Ok s ->
  getItemId w = Ok n ->
  nfts (app (exec (App.fetchNFTs w a) p)) = nfts (app (exec (App.fetchNFTs w a) q))
  /\ (List.length (nfts (app (exec (App.fetchNFTs w a) p))) <= 1)%nat.
Proof.
  intros Ha Hw Hs Hc.
  destruct (Z.eq_dec n 0) as [->|Hn].
  - rewrite (fetchNFTs_zero w a p eth s Ha Hw Hs Hc),
            (fetchNFTs_zero w a q eth s Ha Hw Hs Hc); cbn.
    split; [reflexivity|lia].
  - destruct (resolveToken_emits w n) as (l & cs & con & Hr & _ & Hlen & _).
    rewrite (fetchNFTs_nonzero w a p eth s Ha Hw Hs n l cs con Hc Hn Hr),
            (fetchNFTs_nonzero w a q eth s Ha Hw Hs n l cs con Hc Hn Hr); cbn.
    split; [reflexivity|exact Hlen].
Qed.

Lemma X22_load_replaces_gallery_witness :
  nfts (app (exec (App.fetchNFTs Sample.world (Some Sample.alice))
               (exec (App.handleMint Sample.world) Sample.filled)))
  = nfts (app (exec (App.fetchNFTs Sample.world (Some Sample.alice)) initialPage))
  /\ (List.length
        (nfts (app (exec (App.fetchNFTs Sample.world (Some Sample.alice))
                      (exec (App.handleMint Sample.world) Sample.filled)))) <= 1)%nat.
Proof.
  apply (X22_load_replaces_gallery Sample.world (Some Sample.alice) Sample.wallet
           (Build_Signer Sample.alice) 3); reflexivity.
Defined.

(** X23. From a page without account and without signer, a granted
    connect whose signer request then fails leaves the page half
    connected: the account is set, the form reports that the wallet
    connection could not be initialized and its button stays disabled
    on the initializing label, the banner takes the message of the
    failure, and the gallery is kept. *)
Theorem X23_connect_without_signer
  (w : World) (p : Page) (eth : EthereumProvider) (a : string) (rest : list string)
  (e : Exn) :
  ethereum w = Some eth ->
  eth_requestAccounts eth = Ok (a :: rest) ->
  a <> "" ->
  getSigner eth = Throw e ->
  present (account (app p)) = false ->
  signer (minter p) = None ->
  let p' := exec (App.connect w) p in
  account (app p') = Some a
  /\ mintingState (minter p')
     = MintingState.mk false (Some "Failed to initialize wallet connection") false
  /\ mintButtonDisabled (minter p') = true
  /\ mintButtonLabel (minter p') = LabelInitializing
  /\ error (app p') = Some (App.fetchErrorMessage e)
  /\ nfts (app p') = nfts (app p)
  /\ loading (app p') = false
  /\ calls p' = (calls p ++ [RequestAccounts; GetSigner; GetSigner])%list.
Proof.
  intros Hw Hreq Ha Hs Hp Hsig p'. subst p'.
  assert (Hdiff : sameAccount (account (app p)) (Some a) = false).
  { destruct (account (app p)) as [x|]; cbn in *; [|reflexivity].
    apply negb_false_iff, String.eqb_eq in Hp. subst x.
    apply String.eqb_neq. congruence. }
  assert (Hpa : present (Some a) = true).
  { cbn. apply negb_true_iff, String.eqb_neq. exact Ha. }
  unfold exec, App.connect, App.thenRender, App.connectWallet, detach, exec.
  rewrite Hw. unfold bind, readApp, tryFinally, tryCatch, await; cbn.
  rewrite Hreq; cbn. rewrite Hdiff; cbn.
  unfold App.accountEffects, detach, exec, bind, readApp; cbn.
  unfold NFTMinter.init. rewrite Hw, Hpa.
  unfold tryCatch, bind, await; cbn. rewrite Hs; cbn.
  match goal with
  | |- context [App.fetchNFTs w (Some a) ?q] =>
      pose proof (fetchNFTs_signer_fails w (Some a) q eth e Hpa Hw Hs) as E
  end.
  unfold exec in E. rewrite E; cbn.
  unfold mintButtonDisabled, mintButtonLabel; cbn. rewrite Hsig; cbn.
  rewrite <- !app_assoc. repeat split.
Qed.

Lemma X23_connect_without_signer_witness :
  let eth := {| eth_requestAccounts := Ok [Sample.alice];
                getSigner := Throw (JsError "unknown account #0");
                getAddress := fun s => Ok (signerAddress s) |} in
  let w := Sample.withWallet (Some eth) Sample.world in
  let p' := exec (App.connect w) initialPage in
  account (app p') = Some Sample.alice
  /\ mintingState (minter p')
     = MintingState.mk false (Some "Failed to initialize wallet connection") false
  /\ mintButtonDisabled (minter p') = true
  /\ mintButtonLabel (minter p') = LabelInitializing
  /\ error (app p') = Some (App.fetchErrorMessage (JsError "unknown account #0"))
  /\ nfts (app p') = nfts (app initialPage)
  /\ loading (app p') = false
  /\ calls p' = (calls initialPage ++ [RequestAccounts; GetSigner; GetSigner])%list.
Proof.
  intros eth w.
  apply (X23_connect_without_signer w initialPage eth Sample.alice []
           (JsError "unknown account #0")).
  - reflexivity.
  - reflexivity.
  - discriminate.
  - reflexivity.
  - reflexivity.
  - reflexivity.
Defined.
